(** * BatterySitter: the reconciliation loop between a Zappi EV charger
      and a Sigenstore battery (battery_sitter.py)

    The class [BatterySitter] of battery_sitter.py is embedded as pure
    functions in a small monad that threads the instance fields, records
    the calls made to the two external clients, and propagates Python
    exceptions.  Everything the clients answer during one pass through
    the loop body is an explicit argument ([tick_env]), so a run of the
    loop is a function of the list of answers it receives.

    Not modelled: the calls to [self.logger] (they neither change a field
    nor alter control flow; the attribute reads that a log line performs
    on the charger are kept), and the body of [connect], which only talks
    to the two clients and stamps [last_connection_time] when it gets
    through. *)

From Stdlib Require Import ZArith Floats.SpecFloat.
From stdpp Require Import base strings gmap list pretty.

Set Warnings "-register-all".
Open Scope Z_scope.

(** ** Python values and exceptions *)

(** Subclasses of [BaseException] that are not subclasses of [Exception]:
    a clause [except Exception] lets them through. *)
Inductive base_only : Type :=
| KeyboardInterrupt
| CancelledError
| SystemExit.

Inductive exn : Type :=
| PyException (cls : string)      (* an instance of Exception, by class name *)
| NonException (b : base_only).

(** An awaited call or a property read either returns or raises. *)
Inductive outcome (A : Type) : Type :=
| Returns (a : A)
| Raises (e : exn).
Arguments Returns {A} a.
Arguments Raises {A} e.

(** The values a decoded JSON document can hold; Python floats are IEEE
    binary64 values. *)
Inductive pyval : Type :=
| PNone
| PBool (b : bool)
| PInt (z : Z)
| PFloat (f : spec_float)
| PStr (s : string)
| PList (l : list pyval)
| PDict (d : gmap string pyval).

(** A power level: [int] or [float]. *)
Inductive number : Type :=
| NInt (z : Z)
| NFloat (f : spec_float).

(** [isinstance(v, (int, float))]; [bool] is a subclass of [int]. *)
Definition isinstance_int_float (v : pyval) : bool :=
  match v with
  | PBool _ | PInt _ | PFloat _ => true
  | _ => false
  end.

(** [v > 0] as Python evaluates it: [True] is 1 and [False] is 0, a float
    is compared as a float (so [nan > 0] is [False]), and ordering any
    other value against an [int] raises [TypeError]. *)
Definition py_gt_zero (v : pyval) : outcome bool :=
  match v with
  | PBool b => Returns b
  | PInt z => Returns (0 <? z)
  | PFloat f => Returns (SFltb (S754_zero false) f)
  | _ => Raises (PyException "TypeError")
  end.

(** ** Calls: those made to the two clients, and the entry into the
       method that commands the battery *)

Inductive event : Type :=
| SetInstantManualCharge (enable : bool) (duration_minutes : Z)
    (power_kw : number) (mode : string)   (* the method is entered *)
| ZappiRefresh
| SigenGetEnergyFlow
| SigenEnsureValidToken
| HttpPut (url : string) (headers : pyval) (json : gmap string pyval)
| Connect
| Sleep (seconds : Z).

(** What [self.zappi] answers during one tick.  A charger that was never
    connected ([self.zappi is None]) is the reading whose [refresh] raises
    [AttributeError]. *)
Record Zappi : Type := {
  refresh : outcome unit;
  status : outcome string;
  plug_status : outcome string;
  charge_mode : outcome string
}.

(** What [self.sigen] and the HTTP session answer during one tick.
    [put_response] is the outcome of [session.put], and inside it the
    outcome of [response.json()]. *)
Record Sigen : Type := {
  get_energy_flow : outcome pyval;
  ensure_valid_token : outcome unit;
  BASE_URL : string;
  station_id : pyval;
  headers : pyval;
  client_session : outcome unit;
  put_response : outcome (outcome pyval)
}.

(** Everything the outside answers during one pass through the loop body.
    Times are microseconds.  [asyncio.sleep] of an [int] either completes
    or is interrupted by something that is not an [Exception]. *)
Record tick_env : Type := {
  now : Z;
  connect_reply : outcome Z;
  zappi : Zappi;
  sigen : Sigen;
  sleep_reply : option base_only
}.

(** ** The instance fields *)

Record BatterySitter : Type := {
  charging_power : number;
  poll_interval : Z;
  is_charging : bool;
  running : bool;
  manual_charge_enabled : bool;
  last_connection_time : option Z
}.

(** [__init__] *)
Definition init (charging_power : number) (poll_interval : Z) : BatterySitter :=
  {| charging_power := charging_power;
     poll_interval := poll_interval;
     is_charging := false;
     running := false;
     manual_charge_enabled := false;
     last_connection_time := None |}.

(** [timedelta(hours=8)] *)
Definition reconnect_interval : Z := 8 * 3600 * 1000000.

Definition set_is_charging (b : bool) (s : BatterySitter) : BatterySitter :=
  {| charging_power := charging_power s;
     poll_interval := poll_interval s;
     is_charging := b;
     running := running s;
     manual_charge_enabled := manual_charge_enabled s;
     last_connection_time := last_connection_time s |}.

Definition set_running (b : bool) (s : BatterySitter) : BatterySitter :=
  {| charging_power := charging_power s;
     poll_interval := poll_interval s;
     is_charging := is_charging s;
     running := b;
     manual_charge_enabled := manual_charge_enabled s;
     last_connection_time := last_connection_time s |}.

Definition set_manual_charge_enabled (b : bool) (s : BatterySitter) : BatterySitter :=
  {| charging_power := charging_power s;
     poll_interval := poll_interval s;
     is_charging := is_charging s;
     running := running s;
     manual_charge_enabled := b;
     last_connection_time := last_connection_time s |}.

Definition set_last_connection_time (t : option Z) (s : BatterySitter) : BatterySitter :=
  {| charging_power := charging_power s;
     poll_interval := poll_interval s;
     is_charging := is_charging s;
     running := running s;
     manual_charge_enabled := manual_charge_enabled s;
     last_connection_time := t |}.

(** ** The monad of methods

    A method takes the instance, and gives back the instance as it left
    it, the calls it made, and its result.  Fields assigned before an
    exception stay assigned. *)
Definition M (A : Type) : Type :=
  BatterySitter → BatterySitter * list event * outcome A.

#[global] Instance M_ret : MRet M := λ A a s, (s, [], Returns a).

#[global] Instance M_bind : MBind M := λ A B f m s,
  match m s with
  | (s1, t1, Returns a) =>
      match f a s1 with
      | (s2, t2, r) => (s2, t1 ++ t2, r)
      end
  | (s1, t1, Raises e) => (s1, t1, Raises e)
  end.

Definition raise {A : Type} (e : exn) : M A := λ s, (s, [], Raises e).

(** An awaited call to a client: it is recorded, and answers. *)
Definition call {A : Type} (ev : event) (reply : outcome A) : M A :=
  λ s, (s, [ev], reply).

(** Entering a method whose invocations are counted. *)
Definition enter (ev : event) : M unit := λ s, (s, [ev], Returns ()).

(** A property read on a client, or a pure operation that may raise. *)
Definition attr {A : Type} (reply : outcome A) : M A := λ s, (s, [], reply).

Definition get {A : Type} (field : BatterySitter → A) : M A :=
  λ s, (s, [], Returns (field s)).

Definition modify (f : BatterySitter → BatterySitter) : M unit :=
  λ s, (f s, [], Returns ()).

(** [try: body  except Exception as e: handler] *)
Definition try_except_Exception {A : Type} (body : M A) (handler : string → M A) : M A :=
  λ s,
    match body s with
    | (s1, t1, Raises (PyException cls)) =>
        match handler cls s1 with
        | (s2, t2, r) => (s2, t1 ++ t2, r)
        end
    | r => r
    end.

Definition state_of {A : Type} (r : BatterySitter * list event * outcome A) : BatterySitter :=
  r.1.1.
Definition trace_of {A : Type} (r : BatterySitter * list event * outcome A) : list event :=
  r.1.2.
Definition result_of {A : Type} (r : BatterySitter * list event * outcome A) : outcome A :=
  r.2.

(** ** The methods of [BatterySitter] *)

Section Sitter.

(** [str] of a float (its shortest round-trip representation) is the
    interpreter's business and stays a parameter; [str] of an [int] is its
    decimal numeral. *)
Variable float_repr : spec_float → string.

Definition py_str (n : number) : string :=
  match n with
  | NInt z => pretty z
  | NFloat f => float_repr f
  end.

Definition charging_statuses : list string := ["Charging"; "Boosting"].

(** [get_zappi_charging_status].  The [and] is short-circuit, so the plug
    state is read only for a charging status; the debug line then reads
    the three properties it prints. *)
Definition get_zappi_charging_status (z : Zappi) : M bool :=
  try_except_Exception
    (call ZappiRefresh (refresh z);;
     st ← attr (status z);
     is_charging ←
       (if bool_decide (st ∈ charging_statuses)
        then (p ← attr (plug_status z); mret (String.eqb p "Charging"))
        else mret false);
     attr (status z);;
     attr (plug_status z);;
     attr (charge_mode z);;
     mret is_charging)
    (λ _, mret false).

(** [get_battery_info].  The handler's inner [try] only reads
    [_last_response] for a log line and passes on any failure. *)
Definition get_battery_info (sg : Sigen) : M pyval :=
  try_except_Exception
    (energy_flow ← call SigenGetEnergyFlow (get_energy_flow sg);
     match energy_flow with
     | PNone => mret (PDict ∅)
     | _ => mret energy_flow
     end)
    (λ _, mret (PDict ∅)).

Definition manual_charge_path : string := "device/energy-profile/instant/manunal".

(** The [payload] dictionary of [set_instant_manual_charge]. *)
Definition manual_charge_payload (sg : Sigen) (enable : bool)
    (duration_minutes : Z) (power_kw : number) (mode : string) : gmap string pyval :=
  {[ "enable" := PBool enable;
     "stationId" := station_id sg;
     "mode" := PStr mode;
     "duration" := PStr (pretty duration_minutes);
     "powerLimitation" := PStr (py_str power_kw) ]}.

(** [set_instant_manual_charge]: whatever goes wrong is logged and raised
    again. *)
Definition set_instant_manual_charge (sg : Sigen) (enable : bool)
    (duration_minutes : Z) (power_kw : number) (mode : string) : M pyval :=
  enter (SetInstantManualCharge enable duration_minutes power_kw mode);;
  try_except_Exception
    (call SigenEnsureValidToken (ensure_valid_token sg);;
     let url := BASE_URL sg +:+ manual_charge_path in
     let payload := manual_charge_payload sg enable duration_minutes power_kw mode in
     attr (client_session sg);;
     response ← call (HttpPut url (headers sg) payload) (put_response sg);
     result ← attr response;
     mret result)
    (λ cls, raise (PyException cls)).

(** The default of the [mode] argument, which no caller overrides. *)
Definition default_mode : string := "0".

(** [connect], by its outcome: a connection that gets through stamps the
    time at which it did. *)
Definition connect (env : tick_env) : M unit :=
  t ← call Connect (connect_reply env);
  modify (set_last_connection_time (Some t)).

(** [battery_info.get(key, default)]: only a dictionary has [get]. *)
Definition dict_get (battery_info : pyval) (key : string) (dflt : pyval) : M pyval :=
  match battery_info with
  | PDict d => mret (default dflt (d !! key))
  | _ => raise (PyException "AttributeError")
  end.

(** [isinstance(battery_power, (int, float)) and battery_power > 0] *)
Definition battery_already_charging (battery_power : pyval) : M bool :=
  if isinstance_int_float battery_power
  then attr (py_gt_zero battery_power)
  else mret false.

(** Periodic reconnection, first statement of the loop body. *)
Definition reconnect_if_due (env : tick_env) : M unit :=
  last ← get last_connection_time;
  match last with
  | Some t =>
      if bool_decide (reconnect_interval ≤ now env - t)
      then connect env
      else mret ()
  | None => mret ()
  end.

(** The loop body up to the decision: reconnection, the two probes, and
    the reading of the snapshot.  It yields [zappi_charging],
    [battery_power] and [battery_already_charging]. *)
Definition poll (env : tick_env) : M (bool * pyval * bool) :=
  reconnect_if_due env;;
  zappi_charging ← get_zappi_charging_status (zappi env);
  battery_info ← get_battery_info (sigen env);
  battery_soc ← dict_get battery_info "batterySoc" (PStr "N/A");
  battery_power ← dict_get battery_info "batteryPower" (PStr "N/A");
  already ← battery_already_charging battery_power;
  mret (zappi_charging, battery_power, already).

(** The [if]/[elif] chain under "Handle state changes". *)
Definition handle_state_changes (sg : Sigen) (zappi_charging : bool)
    (already : bool) : M unit :=
  was_charging ← get is_charging;
  if zappi_charging && negb was_charging then
    (* EV charging just started *)
    if already then
      modify (set_is_charging true);;
      modify (set_manual_charge_enabled false)
    else
      power ← get charging_power;
      set_instant_manual_charge sg true 30 power default_mode;;
      modify (set_is_charging true);;
      modify (set_manual_charge_enabled true)
  else if negb zappi_charging && was_charging then
    (* EV charging just stopped *)
    ours ← get manual_charge_enabled;
    (if ours : bool then
       set_instant_manual_charge sg false 0 (NInt 0) default_mode;;
       modify (set_manual_charge_enabled false)
     else mret () : M unit);;
    modify (set_is_charging false)
  else if zappi_charging && was_charging then
    (* EV charging continues *)
    if already then mret ()
    else
      power ← get charging_power;
      set_instant_manual_charge sg true 30 power default_mode;;
      modify (set_manual_charge_enabled true)
  else
    mret ().

(** [await asyncio.sleep(self.poll_interval)] *)
Definition sleep (env : tick_env) : M unit :=
  seconds ← get poll_interval;
  call (Sleep seconds)
       (match sleep_reply env with
        | None => Returns ()
        | Some b => Raises (NonException b)
        end).

(** The body of the [try] inside the [while]. *)
Definition tick (env : tick_env) : M unit :=
  '(zappi_charging, _, already) ← poll env;
  handle_state_changes (sigen env) zappi_charging already;;
  sleep env.

(** How one pass through the [while] body ends. *)
Inductive loop_ctl : Type :=
| Continue
| Break.

(** One pass: the [try] with its two handlers.  [KeyboardInterrupt]
    breaks; an [Exception] is logged and followed by the same sleep;
    anything else leaves the method. *)
Definition loop_iteration (env : tick_env) : M loop_ctl :=
  λ s,
    match tick env s with
    | (s1, t1, Returns _) => (s1, t1, Returns Continue)
    | (s1, t1, Raises (NonException KeyboardInterrupt)) => (s1, t1, Returns Break)
    | (s1, t1, Raises (PyException _)) =>
        match sleep env s1 with
        | (s2, t2, Returns _) => (s2, t1 ++ t2, Returns Continue)
        | (s2, t2, Raises e) => (s2, t1 ++ t2, Raises e)
        end
    | (s1, t1, Raises e) => (s1, t1, Raises e)
    end.

(** How a run of the loop over finitely many passes ends: it has left the
    [while], or it is about to start the next pass. *)
Inductive loop_exit : Type :=
| Left_loop
| Next_pass.

(** [while self.running: ...], over the answers of successive passes. *)
Fixpoint while_running (envs : list tick_env) : M loop_exit :=
  match envs with
  | [] => λ s, (s, [], Returns (if running s then Next_pass else Left_loop))
  | env :: rest =>
      go ← get running;
      if go : bool then
        ctl ← loop_iteration env;
        match ctl with
        | Continue => while_running rest
        | Break => mret Left_loop
        end
      else mret Left_loop
  end.

(** [monitor_loop] *)
Definition monitor_loop (envs : list tick_env) : M loop_exit :=
  modify (set_running true);;
  while_running envs.

(** [shutdown]; [disconnect] only logs. *)
Definition shutdown (sg : Sigen) : M unit :=
  modify (set_running false);;
  ours ← get manual_charge_enabled;
  if ours : bool then
    try_except_Exception
      (set_instant_manual_charge sg false 0 (NInt 0) default_mode;;
       modify (set_manual_charge_enabled false))
      (λ _, mret ())
  else mret ().


(** [run]: [connect] and the loop inside a [try] whose [finally] shuts
    down.  [boot] answers the first connection and [last] is the battery
    cloud as [shutdown] finds it.  Over finitely many passes the loop may
    still be looping when the answers run out ([Next_pass]); the method
    has then not left its [try], and nothing more has happened. *)
Definition run (boot : tick_env) (envs : list tick_env) (last : Sigen) : M loop_exit :=
  λ s,
    match (connect boot;; monitor_loop envs) s with
    | (s1, t1, Returns Next_pass) => (s1, t1, Returns Next_pass)
    | (s1, t1, r) =>
        match shutdown last s1 with
        | (s2, t2, Returns _) => (s2, t1 ++ t2, r)
        | (s2, t2, Raises e) => (s2, t1 ++ t2, Raises e)
        end
    end.

(** ** Methods that only talk to the clients

    [connect] in its steps and [set_operational_mode_by_name] change no
    field that the loop reads; they are functions from the answers of the
    clients to the calls made and the result. *)

Inductive client_call : Type :=
| DiscoverLocations
| FirstRefresh
| AsyncInitialize
| GetOperationalModes
| GetOperationalMode
| SetOperationalMode (value : Z).

Definition Calls (A : Type) : Type := list client_call * outcome A.

#[global] Instance Calls_ret : MRet Calls := λ A a, ([], Returns a).

#[global] Instance Calls_bind : MBind Calls := λ A B f m,
  match m with
  | (t1, Returns a) => (t1 ++ (f a).1, (f a).2)
  | (t1, Raises e) => (t1, Raises e)
  end.

Definition await {A : Type} (c : client_call) (reply : outcome A) : Calls A :=
  ([c], reply).

Definition eval {A : Type} (r : outcome A) : Calls A := ([], r).

(** [try: body  except Exception as e: log; raise] *)
Definition reraising {A : Type} (body : Calls A) : Calls A :=
  match body with
  | (t, Raises (PyException cls)) => (t, Raises (PyException cls))
  | r => r
  end.

(** [v[key]] for a string key: only a dictionary can be subscripted by a
    string, and it must hold the key. *)
Definition py_getitem (v : pyval) (key : string) : outcome pyval :=
  match v with
  | PDict d =>
      match d !! key with
      | Some x => Returns x
      | None => Raises (PyException "KeyError")
      end
  | _ => Raises (PyException "TypeError")
  end.

(** [needle in hay], on strings. *)
Fixpoint contains (needle hay : string) : bool :=
  String.prefix needle hay ||
  match hay with
  | EmptyString => false
  | String _ rest => contains needle rest
  end.

Section Modes.

(** [str.lower] and [int] are the interpreter's. *)
Variable lower : string → string.
Variable py_int : pyval → outcome Z.

(** [mode['label'].lower()] *)
Definition label_lower (mode : pyval) : outcome string :=
  match py_getitem mode "label" with
  | Returns (PStr label) => Returns (lower label)
  | Returns _ => Raises (PyException "AttributeError")
  | Raises e => Raises e
  end.

(** The search loop of [set_operational_mode_by_name]: the first mode
    whose label contains the name, both lowered; it stops there. *)
Fixpoint find_mode (mode_name : string) (modes : list pyval) : outcome (option pyval) :=
  match modes with
  | [] => Returns None
  | mode :: rest =>
      match label_lower mode with
      | Returns label =>
          if contains (lower mode_name) label
          then Returns (Some mode)
          else find_mode mode_name rest
      | Raises e => Raises e
      end
  end.

(** The answers [set_operational_mode_by_name] gets: the list of modes,
    and what setting a mode returns. *)
Record mode_answers : Type := {
  listed_modes : outcome (list pyval);
  set_operational_mode : outcome pyval
}.

(** [set_operational_mode_by_name].  A mode that was found is a
    dictionary holding a label, hence true in the test [not target_mode]. *)
Definition set_operational_mode_by_name (a : mode_answers) (mode_name : string)
    : Calls pyval :=
  reraising
    (modes ← await GetOperationalModes (listed_modes a);
     target_mode ← eval (find_mode mode_name modes);
     match target_mode with
     | None => eval (Raises (PyException "ValueError"))
     | Some mode =>
         value ← eval (py_getitem mode "value");
         mode_value ← eval (py_int value);
         result ← await (SetOperationalMode mode_value) (set_operational_mode a);
         mret result
     end).

End Modes.

(** The answers [connect] gets, step by step, and the time at which it
    takes its stamp.  The client lists the modes as a list; its entries
    are any values. *)
Record connect_answers : Type := {
  discoverLocations : outcome unit;
  first_refresh : outcome unit;
  async_initialize : outcome unit;
  get_operational_modes : outcome (list pyval);
  get_operational_mode : outcome pyval;
  connected_at : Z
}.

(** The line logged for each listed mode reads its label and its value. *)
Fixpoint log_modes (modes : list pyval) : outcome unit :=
  match modes with
  | [] => Returns ()
  | mode :: rest =>
      match py_getitem mode "label" with
      | Raises e => Raises e
      | Returns _ =>
          match py_getitem mode "value" with
          | Raises e => Raises e
          | Returns _ => log_modes rest
          end
      end
  end.

(** [connect], step by step: the calls it makes and the stamp it takes.
    Constructing the three client objects makes no call. *)
Definition connect_steps (c : connect_answers) : Calls Z :=
  await DiscoverLocations (discoverLocations c);;
  await FirstRefresh (first_refresh c);;
  await AsyncInitialize (async_initialize c);;
  modes ← await GetOperationalModes (get_operational_modes c);
  eval (log_modes modes);;
  await GetOperationalMode (get_operational_mode c);;
  mret (connected_at c).

(** ** Loading the configuration (run.py) *)

(** What reading and decoding the file ends in. *)
Inductive file_load : Type :=
| Decoded (document : pyval)
| JSONDecodeError (message : string)
| OtherError (message : string)
| LoadInterrupted (b : base_only).

(** The file system as [load_config] finds it. *)
Record config_file : Type := {
  path_exists : bool;
  load : file_load
}.

(** How the start of the program ends: with a value, with [sys.exit], or
    with something raised. *)
Inductive startup (A : Type) : Type :=
| Started (a : A)
| Exit (code : Z)
| Failed (e : exn).
Arguments Started {A} a.
Arguments Exit {A} code.
Arguments Failed {A} e.

(** [load_config]: the lines printed, and the document or the exit. *)
Definition load_config (fs : config_file) (config_path : string)
    : list string * startup pyval :=
  if negb (path_exists fs) then
    (["ERROR: " +:+ config_path +:+ " not found!";
      "Please copy config.example.json to config.json and fill in your credentials."],
     Exit 1)
  else
    match load fs with
    | Decoded document => ([], Started document)
    | JSONDecodeError message =>
        (["ERROR: Invalid JSON in " +:+ config_path +:+ ": " +:+ message], Exit 1)
    | OtherError message =>
        (["ERROR: Failed to load " +:+ config_path +:+ ": " +:+ message], Exit 1)
    | LoadInterrupted b => ([], Failed (NonException b))
    end.

(** The arguments [main] reads out of the document for the constructor,
    in the order it evaluates them. *)
Record settings : Type := {
  zappi_username : pyval;
  zappi_password : pyval;
  zappi_serial : pyval;
  sigenergy_username : pyval;
  sigenergy_password : pyval;
  sigenergy_region : pyval;
  setting_poll_interval : pyval;
  setting_charging_power : pyval
}.

(** [config[section][key]] *)
Definition setting (config : pyval) (section key : string) : outcome pyval :=
  match py_getitem config section with
  | Returns inner => py_getitem inner key
  | Raises e => Raises e
  end.

Definition read_settings (config : pyval) : outcome settings :=
  match setting config "zappi" "username" with Raises e => Raises e | Returns zu =>
  match setting config "zappi" "password" with Raises e => Raises e | Returns zp =>
  match setting config "zappi" "serial" with Raises e => Raises e | Returns zs =>
  match setting config "sigenergy" "username" with Raises e => Raises e | Returns su =>
  match setting config "sigenergy" "password" with Raises e => Raises e | Returns sp =>
  match setting config "sigenergy" "region" with Raises e => Raises e | Returns sr =>
  match setting config "polling" "interval_seconds" with Raises e => Raises e | Returns pi =>
  match setting config "sigenergy" "charging_power" with Raises e => Raises e | Returns cp =>
    Returns {| zappi_username := zu; zappi_password := zp; zappi_serial := zs;
               sigenergy_username := su; sigenergy_password := sp;
               sigenergy_region := sr; setting_poll_interval := pi;
               setting_charging_power := cp |}
  end end end end end end end end.

(** The start of [main] in run.py, up to the constructor's arguments; the
    set-up of the log sinks in between is left out, as logging is. *)
Definition load_settings (fs : config_file) (config_path : string)
    : list string * startup settings :=
  match load_config fs config_path with
  | (printed, Started config) =>
      (printed,
       match read_settings config with
       | Returns st => Started st
       | Raises e => Failed e
       end)
  | (printed, Exit code) => (printed, Exit code)
  | (printed, Failed e) => (printed, Failed e)
  end.

(** ** Vocabulary of the properties *)

(** The control commands among the calls of a trace: the invocations of
    [set_instant_manual_charge]. *)
Definition is_command (ev : event) : bool :=
  match ev with
  | SetInstantManualCharge _ _ _ _ => true
  | _ => false
  end.

Definition commands (t : list event) : list event := List.filter is_command t.

Definition is_put (ev : event) : bool :=
  match ev with
  | HttpPut _ _ _ => true
  | _ => false
  end.

Definition puts (t : list event) : list event := List.filter is_put t.

Definition is_sleep (ev : event) : bool :=
  match ev with
  | Sleep _ => true
  | _ => false
  end.

Definition sleeps (t : list event) : list event := List.filter is_sleep t.

(** What a command ends in, read off the answers of the battery cloud:
    the first step that raises, or the decoded response. *)
Definition command_result (sg : Sigen) : outcome pyval :=
  match ensure_valid_token sg with
  | Raises e => Raises e
  | Returns _ =>
      match client_session sg with
      | Raises e => Raises e
      | Returns _ =>
          match put_response sg with
          | Raises e => Raises e
          | Returns response => response
          end
      end
  end.

(** Whether the command gets as far as its request. *)
Definition request_sent (sg : Sigen) : bool :=
  match ensure_valid_token sg, client_session sg with
  | Returns _, Returns _ => true
  | _, _ => false
  end.

(** The calls of one command. *)
Definition command_trace (sg : Sigen) (enable : bool) (duration_minutes : Z)
    (power_kw : number) (mode : string) : list event :=
  [SetInstantManualCharge enable duration_minutes power_kw mode;
   SigenEnsureValidToken] ++
  (if request_sent sg
   then [HttpPut (BASE_URL sg +:+ manual_charge_path) (headers sg)
           (manual_charge_payload sg enable duration_minutes power_kw mode)]
   else []).

Definition discard {A : Type} (r : outcome A) : outcome unit :=
  match r with
  | Returns _ => Returns ()
  | Raises e => Raises e
  end.

Definition returns {A : Type} (r : outcome A) : bool :=
  match r with
  | Returns _ => true
  | Raises _ => false
  end.

(** The first thing to go wrong while the charger is refreshed and read,
    in the order of the reads. *)
Definition zappi_failure (z : Zappi) : option exn :=
  match refresh z, status z, plug_status z, charge_mode z with
  | Raises e, _, _, _ => Some e
  | _, Raises e, _, _ => Some e
  | _, _, Raises e, _ => Some e
  | _, _, _, Raises e => Some e
  | _, _, _, _ => None
  end.

(** The derived boolean of the data model:
    state in {Charging, Boosting} and plugState = Charging. *)
Definition isActivelyCharging (z : Zappi) : Prop :=
  ∃ state plug,
    status z = Returns state ∧ plug_status z = Returns plug ∧
    (state = "Charging" ∨ state = "Boosting") ∧ plug = "Charging".

(** The decision table, as the specification words it: for the inputs
    (evNow, evPrev, batteryCharging) and the ownership before the tick,
    the action and the new ownership. *)
Inductive table_action : Type :=
| NoCommand
| EnableOverride
| DisableOverride.

Definition table_row (evNow evPrev batteryCharging ownsOverride : bool)
    : table_action * bool :=
  match evNow, evPrev, batteryCharging with
  | true, false, true => (NoCommand, false)
  | true, false, false => (EnableOverride, true)
  | false, true, _ => (if ownsOverride then DisableOverride else NoCommand, false)
  | true, true, true => (NoCommand, ownsOverride)
  | true, true, false => (EnableOverride, true)
  | false, false, _ => (NoCommand, ownsOverride)
  end.

(** The command an action stands for: the override lasts 30 minutes at
    the configured power; disabling passes zeros. *)
Definition table_command (a : table_action) (configured : number) : list event :=
  match a with
  | NoCommand => []
  | EnableOverride => [SetInstantManualCharge true 30 configured "0"]
  | DisableOverride => [SetInstantManualCharge false 0 (NInt 0) "0"]
  end.

(** ownsOverride ⇒ isEvCharging *)
Definition ownership_invariant (s : BatterySitter) : Prop :=
  manual_charge_enabled s = true → is_charging s = true.

(** The fields a probe must leave alone. *)
Definition same_flags (s s' : BatterySitter) : Prop :=
  is_charging s' = is_charging s ∧
  manual_charge_enabled s' = manual_charge_enabled s ∧
  running s' = running s ∧
  charging_power s' = charging_power s ∧
  poll_interval s' = poll_interval s.

(** A method that leaves those fields alone, commands nothing and does
    not sleep. *)
Definition Quiet {A : Type} (m : M A) : Prop :=
  ∀ s, same_flags s (state_of (m s)) ∧
       commands (trace_of (m s)) = [] ∧ sleeps (trace_of (m s)) = [].



(** What the charging-status probe returns, read off the charger's
    answers. *)
Definition probe_result (z : Zappi) : outcome bool :=
  match zappi_failure z with
  | None =>
      Returns (match status z, plug_status z with
               | Returns st, Returns p =>
                   bool_decide (st ∈ charging_statuses) && String.eqb p "Charging"
               | _, _ => false
               end)
  | Some (PyException _) => Returns false
  | Some (NonException b) => Raises (NonException b)
  end.

(** What the telemetry probe returns, read off the battery cloud's
    answer. *)
Definition snapshot_result (sg : Sigen) : outcome pyval :=
  match get_energy_flow sg with
  | Returns PNone => Returns (PDict ∅)
  | Returns v => Returns v
  | Raises (PyException _) => Returns (PDict ∅)
  | Raises (NonException b) => Raises (NonException b)
  end.

(** What the sleep between two passes ends in. *)
Definition sleep_result (env : tick_env) : outcome unit :=
  match sleep_reply env with
  | None => Returns ()
  | Some b => Raises (NonException b)
  end.

(** "Numeric and strictly greater than 0", on a reported power. *)
Definition numeric_and_positive (v : pyval) : bool :=
  match v with
  | PBool b => b
  | PInt z => 0 <? z
  | PFloat f => SFltb (S754_zero false) f
  | _ => false
  end.

(** The reported power of a snapshot: the entry [batteryPower], or the
    string N/A when there is none. *)
Definition reported_power (d : gmap string pyval) : pyval :=
  default (PStr "N/A") (d !! "batteryPower").

(** The two commands the loop ever invokes. *)
Definition enable_command (power : number) : event :=
  SetInstantManualCharge true 30 power default_mode.

Definition disable_command : event :=
  SetInstantManualCharge false 0 (NInt 0) default_mode.

Definition is_enable (ev : event) : bool :=
  match ev with
  | SetInstantManualCharge true _ _ _ => true
  | _ => false
  end.

Definition is_disable (ev : event) : bool :=
  match ev with
  | SetInstantManualCharge false _ _ _ => true
  | _ => false
  end.

(** A telemetry answer that is neither [None] nor a dictionary. *)
Definition not_a_snapshot (v : pyval) : bool :=
  match v with
  | PNone | PDict _ => false
  | _ => true
  end.

(** Whether the pass starts with a reconnection: a connection was made,
    and at least the interval ago. *)
Definition reconnect_due (env : tick_env) (s : BatterySitter) : bool :=
  match last_connection_time s with
  | Some t => bool_decide (reconnect_interval ≤ now env - t)
  | None => false
  end.

Definition is_connect (ev : event) : bool :=
  match ev with
  | Connect => true
  | _ => false
  end.

Definition connects (t : list event) : list event := List.filter is_connect t.

(** A listed mode whose label is a string that does not contain the
    name, both lowered. *)
Definition passed_over (lower : string → string) (mode_name : string)
    (mode : pyval) : Prop :=
  ∃ label, py_getitem mode "label" = Returns (PStr label) ∧
           contains (lower mode_name) (lower label) = false.

(** A listed mode that [connect] can log: a dictionary holding a label
    and a value. *)
Definition loggable (mode : pyval) : Prop :=
  ∃ d label value,
    mode = PDict d ∧ d !! "label" = Some label ∧ d !! "value" = Some value.

(** The calls of a [connect] that gets through, in order. *)
Definition connect_calls : list client_call :=
  [DiscoverLocations; FirstRefresh; AsyncInitialize; GetOperationalModes;
   GetOperationalMode].

(** The document holds [value] under [section] and [key]. *)
Definition holds (config : pyval) (section key : string) (value : pyval) : Prop :=
  ∃ c inner, config = PDict c ∧ c !! section = Some (PDict inner) ∧
             inner !! key = Some value.

(** ** Scenarios

    Concrete answers of the outside, after the scenarios of the
    specification.  They use integer power levels only, so the rendering
    of floats plays no part in them. *)

Definition repr_unused : spec_float → string := λ _, "float".

Definition reading (ev_charging : bool) : Zappi :=
  {| refresh := Returns ();
     status := Returns (if ev_charging then "Charging" else "Paused");
     plug_status := Returns (if ev_charging then "Charging" else "EV Connected");
     charge_mode := Returns "Eco+" |}.

Definition snapshot (soc power : pyval) : pyval :=
  PDict {[ "batterySoc" := soc; "batteryPower" := power ]}.

Definition cloud (flow : outcome pyval) (put : outcome (outcome pyval)) : Sigen :=
  {| get_energy_flow := flow;
     ensure_valid_token := Returns ();
     BASE_URL := "https://api-eu.sigencloud.com/";
     station_id := PInt 2024;
     headers := PDict ∅;
     client_session := Returns ();
     put_response := put |}.

Definition accepted : outcome (outcome pyval) := Returns (Returns (PDict ∅)).

Definition refused : outcome (outcome pyval) := Raises (PyException "ClientConnectorError").

(** One pass: whether the EV charges, the reported power, and what the
    cloud makes of a command. *)
Definition scenario (ev_charging : bool) (power : pyval)
    (put : outcome (outcome pyval)) : tick_env :=
  {| now := 0;
     connect_reply := Returns 0;
     zappi := reading ev_charging;
     sigen := cloud (Returns (snapshot (PInt 55) power)) put;
     sleep_reply := None |}.


(** The instance while this process owns the override. *)
Definition owning : BatterySitter :=
  {| charging_power := NInt 1;
     poll_interval := 30;
     is_charging := true;
     running := true;
     manual_charge_enabled := true;
     last_connection_time := None |}.

(** A pass at a given time, with the answers of a reconnection, of the
    charger and of the battery cloud. *)
Definition pass_at (t : Z) (reply : outcome Z) (z : Zappi) (sg : Sigen) : tick_env :=
  {| now := t; connect_reply := reply; zappi := z; sigen := sg;
     sleep_reply := None |}.

(** A charger that cannot be refreshed. *)
Definition unreachable : Zappi :=
  {| refresh := Raises (PyException "TimeoutError");
     status := Returns "Charging";
     plug_status := Returns "Charging";
     charge_mode := Returns "Eco+" |}.

(** An instance connected at time 0, with both flags clear. *)
Definition connected : BatterySitter :=
  set_last_connection_time (Some 0) (set_running true (init (NInt 1) 30)).

(** Eight hours, in microseconds. *)
Definition eight_hours : Z := 28800000000.

(** A pass interrupted from the keyboard during its sleep. *)
Definition interrupted (ev_charging : bool) (power : pyval) : tick_env :=
  {| now := 0;
     connect_reply := Returns 0;
     zappi := reading ev_charging;
     sigen := cloud (Returns (snapshot (PInt 55) power)) accepted;
     sleep_reply := Some KeyboardInterrupt |}.

(** Lower case, for the letters A to Z only. *)
Definition lower_letter (c : Ascii.ascii) : Ascii.ascii :=
  let n := Ascii.nat_of_ascii c in
  if ((65 <=? n) && (n <=? 90))%nat then Ascii.ascii_of_nat (n + 32) else c.

Fixpoint lower_letters (text : string) : string :=
  match text with
  | EmptyString => EmptyString
  | String c rest => String (lower_letter c) (lower_letters rest)
  end.

(** [int], for an [int] only. *)
Definition int_of_int (v : pyval) : outcome Z :=
  match v with
  | PInt z => Returns z
  | _ => Raises (PyException "TypeError")
  end.

Definition listed (label : string) (value : Z) : pyval :=
  PDict {[ "label" := PStr label; "value" := PInt value ]}.

(** Three modes and an entry that is none. *)
Definition some_modes : mode_answers :=
  {| listed_modes :=
       Returns [listed "Sigen AI Mode" 1; listed "Maximum Self-Powered" 0;
                listed "Fully Fed to Grid" 5; PNone];
     set_operational_mode := Returns (PBool true) |}.

(** A complete configuration document, and the file holding it. *)
Definition some_config : pyval :=
  PDict {[ "zappi" := PDict {[ "username" := PStr "hub"; "password" := PStr "key";
                               "serial" := PStr "12345678" ]};
           "sigenergy" := PDict {[ "username" := PStr "me@example.org";
                                   "password" := PStr "secret";
                                   "region" := PStr "eu";
                                   "charging_power" := PInt 1 ]};
           "polling" := PDict {[ "interval_seconds" := PInt 30 ]} ]}.

Definition some_file : config_file :=
  {| path_exists := true; load := Decoded some_config |}.

(** ** Running the monad *)

Lemma bind_run {A B : Type} (m : M A) (f : A → M B) (s : BatterySitter) :
  (m ≫= f) s =
    match m s with
    | (s1, t1, Returns a) =>
        match f a s1 with
        | (s2, t2, r) => (s2, t1 ++ t2, r)
        end
    | (s1, t1, Raises e) => (s1, t1, Raises e)
    end.
Proof. reflexivity. Qed.

Lemma state_of_run {A : Type} s t (r : outcome A) : state_of (s, t, r) = s.
Proof. reflexivity. Qed.

Lemma trace_of_run {A : Type} s t (r : outcome A) : trace_of (s, t, r) = t.
Proof. reflexivity. Qed.

Lemma result_of_run {A : Type} s t (r : outcome A) : result_of (s, t, r) = r.
Proof. reflexivity. Qed.

Lemma commands_app (t1 t2 : list event) :
  commands (t1 ++ t2) = commands t1 ++ commands t2.
Proof. apply List.filter_app. Qed.

Lemma same_flags_refl s : same_flags s s.
Proof. repeat split. Qed.

Lemma same_flags_trans s1 s2 s3 :
  same_flags s1 s2 → same_flags s2 s3 → same_flags s1 s3.
Proof.
  unfold same_flags. intros (?&?&?&?&?) (?&?&?&?&?).
  repeat split; congruence.
Qed.

Lemma sleeps_app (t1 t2 : list event) :
  sleeps (t1 ++ t2) = sleeps t1 ++ sleeps t2.
Proof. apply List.filter_app. Qed.

Lemma Quiet_pure {A : Type} (r : outcome A) : Quiet (λ s, (s, [], r)).
Proof. intros s. split; [apply same_flags_refl | by split]. Qed.

Lemma Quiet_ret {A : Type} (a : A) : Quiet (mret a).
Proof. apply Quiet_pure. Qed.

Lemma Quiet_get {A : Type} (field : BatterySitter → A) : Quiet (get field).
Proof. intros s. split; [apply same_flags_refl | by split]. Qed.

Lemma Quiet_call {A : Type} (ev : event) (r : outcome A) :
  is_command ev = false → is_sleep ev = false → Quiet (call ev r).
Proof.
  intros Hc Hs s. split; [apply same_flags_refl |].
  unfold commands, sleeps, call, trace_of. simpl. rewrite Hc, Hs. by split.
Qed.

Lemma Quiet_bind {A B : Type} (m : M A) (f : A → M B) :
  Quiet m → (∀ a, Quiet (f a)) → Quiet (m ≫= f).
Proof.
  intros Hm Hf s. rewrite bind_run.
  specialize (Hm s). destruct (m s) as [[s1 t1] [a|e]]; [|exact Hm].
  specialize (Hf a s1). destruct (f a s1) as [[s2 t2] r].
  unfold state_of, trace_of in *. simpl in *.
  destruct Hm as (Hm1 & Hm2 & Hm3), Hf as (Hf1 & Hf2 & Hf3). split.
  - eapply same_flags_trans; eassumption.
  - rewrite commands_app, sleeps_app, Hm2, Hf2, Hm3, Hf3. by split.
Qed.

Lemma Quiet_set_last_connection_time t :
  Quiet (modify (set_last_connection_time t)).
Proof. intros s. split; [repeat split | by split]. Qed.

(** ** The two probes *)

Lemma get_zappi_charging_status_run z s :
  get_zappi_charging_status z s =
    (s, [ZappiRefresh], probe_result z).
Proof.
  unfold get_zappi_charging_status, try_except_Exception, probe_result,
    zappi_failure.
  rewrite !bind_run. unfold call, attr.
  destruct (refresh z) as [[]|[cls|b]]; [|reflexivity..].
  destruct (status z) as [st|[cls|b]]; [|reflexivity..].
  rewrite !bind_run.
  destruct (bool_decide (st ∈ charging_statuses)); rewrite ?bind_run;
    destruct (plug_status z) as [p|[cls|b]]; try reflexivity;
    destruct (charge_mode z) as [c|[cls|b]]; reflexivity.
Qed.

Lemma get_battery_info_run sg s :
  get_battery_info sg s =
    (s, [SigenGetEnergyFlow], snapshot_result sg).
Proof.
  unfold get_battery_info, try_except_Exception, snapshot_result.
  rewrite bind_run. unfold call.
  destruct (get_energy_flow sg) as [[]|[cls|b]]; reflexivity.
Qed.

Lemma battery_already_charging_run v s :
  battery_already_charging v s =
    (s, [], Returns (numeric_and_positive v)).
Proof. destruct v; reflexivity. Qed.

(** ** The override controller *)

Lemma set_instant_manual_charge_run sg enable duration_minutes power_kw mode s :
  set_instant_manual_charge sg enable duration_minutes power_kw mode s =
    (s, command_trace sg enable duration_minutes power_kw mode, command_result sg).
Proof.
  unfold set_instant_manual_charge, try_except_Exception, command_trace,
    command_result, request_sent.
  rewrite !bind_run. unfold enter, call, attr.
  destruct (ensure_valid_token sg) as [[]|[cls|b]]; [|reflexivity..].
  destruct (client_session sg) as [[]|[cls|b]]; [|reflexivity..].
  destruct (put_response sg) as [[v|[cls|b]]|[cls|b]]; reflexivity.
Qed.

(** ** One pass through the loop body *)

Lemma reconnect_if_due_quiet env : Quiet (reconnect_if_due env).
Proof.
  unfold reconnect_if_due, connect.
  apply Quiet_bind; [apply Quiet_get |].
  intros [t|]; [|apply Quiet_ret].
  case_bool_decide; [|apply Quiet_ret].
  apply Quiet_bind; [by apply Quiet_call |].
  intros t'. apply Quiet_set_last_connection_time.
Qed.

(** The loop body up to the decision, in closed form. *)
Lemma poll_run env s :
  poll env s =
    let s0 := state_of (reconnect_if_due env s) in
    let t0 := trace_of (reconnect_if_due env s) in
    match result_of (reconnect_if_due env s) with
    | Raises e => (s0, t0, Raises e)
    | Returns _ =>
        match probe_result (zappi env) with
        | Raises e => (s0, t0 ++ [ZappiRefresh], Raises e)
        | Returns zappi_charging =>
            match snapshot_result (sigen env) with
            | Raises e => (s0, t0 ++ [ZappiRefresh; SigenGetEnergyFlow], Raises e)
            | Returns (PDict d) =>
                (s0, t0 ++ [ZappiRefresh; SigenGetEnergyFlow],
                 Returns (zappi_charging, reported_power d,
                          numeric_and_positive (reported_power d)))
            | Returns _ =>
                (s0, t0 ++ [ZappiRefresh; SigenGetEnergyFlow],
                 Raises (PyException "AttributeError"))
            end
        end
    end.
Proof.
  unfold poll. rewrite bind_run.
  destruct (reconnect_if_due env s) as [[s0 t0] [[]|e]]; [|reflexivity].
  rewrite bind_run, get_zappi_charging_status_run.
  destruct (probe_result (zappi env)) as [zc|e]; [|reflexivity].
  rewrite bind_run, get_battery_info_run.
  destruct (snapshot_result (sigen env)) as [v|e]; [|reflexivity].
  unfold state_of, trace_of, result_of. simpl.
  destruct v; try reflexivity.
  unfold reported_power, dict_get.
  rewrite !bind_run. unfold mret at 1 2, M_ret.
  destruct (d !! "batteryPower") as [[]|]; reflexivity.
Qed.

Lemma poll_quiet env : Quiet (poll env).
Proof.
  intros s. rewrite poll_run.
  destruct (reconnect_if_due_quiet env s) as (Hs & Hc & Hz).
  assert (H : ∀ t, commands t = [] → sleeps t = [] →
    commands (trace_of (reconnect_if_due env s) ++ t) = [] ∧
    sleeps (trace_of (reconnect_if_due env s) ++ t) = []).
  { intros t Hc' Hz'. rewrite commands_app, sleeps_app, Hc, Hz, Hc', Hz'. by split. }
  destruct (result_of (reconnect_if_due env s)); [|by split].
  destruct (probe_result (zappi env)); [|split; [done | by apply H]].
  destruct (snapshot_result (sigen env)) as [[]|]; (split; [done | by apply H]).
Qed.

(** What the decision is fed: the third component is what the second
    makes it. *)
Lemma poll_already env s s1 t1 zappi_charging battery_power already :
  poll env s = (s1, t1, Returns (zappi_charging, battery_power, already)) →
  already = numeric_and_positive battery_power.
Proof.
  rewrite poll_run.
  destruct (result_of (reconnect_if_due env s)); [|discriminate].
  destruct (probe_result (zappi env)); [|discriminate].
  destruct (snapshot_result (sigen env)) as [[]|]; try discriminate.
  simpl. intros [= _ _ _ <- <-]. reflexivity.
Qed.

(** The decision step in closed form. *)
Lemma handle_state_changes_run sg zappi_charging already s :
  handle_state_changes sg zappi_charging already s =
    let enable (after : BatterySitter) :=
      match command_result sg with
      | Returns _ =>
          (after, command_trace sg true 30 (charging_power s) default_mode, Returns ())
      | Raises e =>
          (s, command_trace sg true 30 (charging_power s) default_mode, Raises e)
      end in
    if zappi_charging && negb (is_charging s) then
      if already
      then (set_manual_charge_enabled false (set_is_charging true s), [], Returns ())
      else enable (set_manual_charge_enabled true (set_is_charging true s))
    else if negb zappi_charging && is_charging s then
      if manual_charge_enabled s then
        match command_result sg with
        | Returns _ =>
            (set_is_charging false (set_manual_charge_enabled false s),
             command_trace sg false 0 (NInt 0) default_mode, Returns ())
        | Raises e =>
            (s, command_trace sg false 0 (NInt 0) default_mode, Raises e)
        end
      else (set_is_charging false s, [], Returns ())
    else if zappi_charging && is_charging s then
      if already then (s, [], Returns ())
      else enable (set_manual_charge_enabled true s)
    else (s, [], Returns ()).
Proof.
  unfold handle_state_changes. rewrite bind_run. unfold get at 1.
  destruct zappi_charging, (is_charging s) eqn:Hc, already; simpl;
    try reflexivity.
  all: rewrite ?bind_run; unfold get; rewrite ?bind_run.
  all: try destruct (manual_charge_enabled s) eqn:Ho.
  all: rewrite ?bind_run, ?set_instant_manual_charge_run.
  all: destruct (command_result sg) as [v|e]; simpl; rewrite ?app_nil_r;
    reflexivity.
Qed.

Lemma sleep_run env s :
  sleep env s = (s, [Sleep (poll_interval s)], sleep_result env).
Proof. reflexivity. Qed.

(** The body of the [try], in closed form. *)
Lemma tick_run env s :
  tick env s =
    match poll env s with
    | (s1, t1, Raises e) => (s1, t1, Raises e)
    | (s1, t1, Returns (zappi_charging, _, already)) =>
        match handle_state_changes (sigen env) zappi_charging already s1 with
        | (s2, t2, Raises e) => (s2, t1 ++ t2, Raises e)
        | (s2, t2, Returns _) =>
            (s2, t1 ++ t2 ++ [Sleep (poll_interval s2)], sleep_result env)
        end
    end.
Proof.
  unfold tick. rewrite bind_run.
  destruct (poll env s) as [[s1 t1] [[[zc pw] bac]|e]]; [|reflexivity].
  rewrite bind_run.
  destruct (handle_state_changes (sigen env) zc bac s1) as [[s2 t2] [[]|e]];
    reflexivity.
Qed.

(** One pass through the [while] body, in closed form. *)
Lemma loop_iteration_run env s :
  loop_iteration env s =
    let s1 := state_of (tick env s) in
    let t1 := trace_of (tick env s) in
    match result_of (tick env s) with
    | Returns _ => (s1, t1, Returns Continue)
    | Raises (NonException KeyboardInterrupt) => (s1, t1, Returns Break)
    | Raises (PyException _) =>
        (s1, t1 ++ [Sleep (poll_interval s1)],
         match sleep_reply env with
         | None => Returns Continue
         | Some b => Raises (NonException b)
         end)
    | Raises e => (s1, t1, Raises e)
    end.
Proof.
  unfold loop_iteration.
  destruct (tick env s) as [[s1 t1] [[]|[cls|[]]]]; try reflexivity.
  rewrite sleep_run. unfold sleep_result, state_of, trace_of, result_of. simpl.
  destruct (sleep_reply env); reflexivity.
Qed.

Lemma loop_iteration_state env s :
  state_of (loop_iteration env s) = state_of (tick env s).
Proof.
  rewrite loop_iteration_run.
  destruct (result_of (tick env s)) as [[]|[cls|[]]]; reflexivity.
Qed.

Lemma loop_iteration_commands env s :
  commands (trace_of (loop_iteration env s)) = commands (trace_of (tick env s)).
Proof.
  rewrite loop_iteration_run.
  destruct (result_of (tick env s)) as [[]|[cls|[]]]; try reflexivity.
  unfold trace_of at 1. simpl. rewrite commands_app. simpl. apply app_nil_r.
Qed.

(** A pass whose probes return is decided by [handle_state_changes], run
    from a state with the same flags. *)
Lemma iteration_decision env s s1 t1 zappi_charging battery_power already :
  poll env s = (s1, t1, Returns (zappi_charging, battery_power, already)) →
  same_flags s s1 ∧
  state_of (loop_iteration env s) =
    state_of (handle_state_changes (sigen env) zappi_charging already s1) ∧
  commands (trace_of (loop_iteration env s)) =
    commands (trace_of (handle_state_changes (sigen env) zappi_charging already s1)).
Proof.
  intros Hp. destruct (poll_quiet env s) as (Hf & Hc & _).
  rewrite loop_iteration_state, loop_iteration_commands, tick_run.
  rewrite Hp in *. unfold state_of, trace_of in Hf, Hc. simpl in Hf, Hc.
  split; [exact Hf |].
  destruct (handle_state_changes (sigen env) zappi_charging already s1)
    as [[s2 t2] [[]|e]]; unfold state_of, trace_of; simpl.
  - split; [reflexivity |].
    rewrite !commands_app, Hc. simpl. apply app_nil_r.
  - split; [reflexivity |]. rewrite commands_app, Hc. reflexivity.
Qed.

(** A pass whose probes raise decides nothing. *)
Lemma iteration_undecided env s e :
  result_of (poll env s) = Raises e →
  same_flags s (state_of (loop_iteration env s)) ∧
  commands (trace_of (loop_iteration env s)) = [].
Proof.
  intros Hp. destruct (poll_quiet env s) as (Hf & Hc & _).
  rewrite loop_iteration_state, loop_iteration_commands, tick_run.
  destruct (poll env s) as [[s1 t1] r]. unfold result_of in Hp. simpl in Hp.
  subst r. split; assumption.
Qed.




(** The decision step keeps the invariant, whether or not its command
    gets through. *)
Lemma handle_state_changes_invariant sg zappi_charging already s :
  ownership_invariant s →
  ownership_invariant (state_of (handle_state_changes sg zappi_charging already s)).
Proof.
  unfold ownership_invariant. rewrite handle_state_changes_run. intros Hi.
  destruct zappi_charging, (is_charging s) eqn:Hc, already,
    (manual_charge_enabled s) eqn:Ho, (command_result sg);
    unfold state_of; simpl; rewrite ?Hc, ?Ho; intuition congruence.
Qed.

Lemma same_flags_invariant s s' :
  same_flags s s' → ownership_invariant s → ownership_invariant s'.
Proof.
  unfold ownership_invariant. intros (Hc & Ho & _). rewrite Hc, Ho. auto.
Qed.

Lemma loop_iteration_invariant env s :
  ownership_invariant s → ownership_invariant (state_of (loop_iteration env s)).
Proof.
  intros Hi. destruct (poll env s) as [[s1 t1] [[[zc pw] bac]|e]] eqn:Hp.
  - destruct (iteration_decision _ _ _ _ _ _ _ Hp) as (Hf & -> & _).
    apply handle_state_changes_invariant.
    eapply same_flags_invariant; eassumption.
  - destruct (iteration_undecided env s e) as [Hf _]; [by rewrite Hp |].
    eapply same_flags_invariant; eassumption.
Qed.

Lemma while_running_invariant envs s :
  ownership_invariant s → ownership_invariant (state_of (while_running envs s)).
Proof.
  revert s. induction envs as [|env rest IH]; intros s Hi; [exact Hi |].
  cbn [while_running]. rewrite bind_run. unfold get at 1.
  destruct (running s); [|exact Hi].
  rewrite bind_run.
  pose proof (loop_iteration_invariant env s Hi) as Hi'.
  destruct (loop_iteration env s) as [[s1 t1] [[]|e]];
    unfold state_of in Hi'; simpl in Hi'; try exact Hi'.
  specialize (IH s1 Hi').
  destruct (while_running rest s1) as [[s2 t2] r]. exact IH.
Qed.

(** [shutdown] in closed form. *)
Lemma shutdown_run sg s :
  shutdown sg s =
    let t := command_trace sg false 0 (NInt 0) default_mode in
    if manual_charge_enabled s then
      match command_result sg with
      | Returns _ =>
          (set_manual_charge_enabled false (set_running false s), t, Returns ())
      | Raises (PyException _) => (set_running false s, t, Returns ())
      | Raises (NonException b) => (set_running false s, t, Raises (NonException b))
      end
    else (set_running false s, [], Returns ()).
Proof.
  unfold shutdown, try_except_Exception, modify, get.
  rewrite !bind_run. cbn [manual_charge_enabled set_running].
  destruct (manual_charge_enabled s); [|reflexivity].
  rewrite bind_run, set_instant_manual_charge_run.
  destruct (command_result sg) as [v|[cls|b]]; simpl; rewrite ?app_nil_r;
    reflexivity.
Qed.

(** Shutting down only ever clears the ownership. *)
Lemma shutdown_invariant sg s :
  ownership_invariant s → ownership_invariant (state_of (shutdown sg s)).
Proof.
  unfold ownership_invariant. rewrite shutdown_run.
  destruct (manual_charge_enabled s) eqn:Ho.
  - destruct (command_result sg) as [v|[cls|b]]; unfold state_of; simpl;
      rewrite ?Ho; intuition congruence.
  - unfold state_of. simpl. rewrite Ho. discriminate.
Qed.

(** ** The reconciliation loop: ownership *)

(** C1. In every state the loop reaches from the freshly constructed
    instance, after any number of passes and whatever the outside
    answered, [manual_charge_enabled] is true only if [is_charging] is.
    Moreover a pass taken from such a state leaves
    [manual_charge_enabled] false (i) when it finds that EV charging has
    stopped and the disable command, if one is due, returns, and (ii) when
    it finds EV charging starting while the battery is already
    charging. *)
Theorem ownership_implies_ev_charging
    (power : number) (interval : Z) (envs : list tick_env) :
  let s := state_of (monitor_loop envs (init power interval)) in
  ownership_invariant s ∧
  ∀ env s1 t1 zappi_charging battery_power already,
    poll env s = (s1, t1, Returns (zappi_charging, battery_power, already)) →
    let s' := state_of (loop_iteration env s) in
    (zappi_charging = false → is_charging s = true →
     (manual_charge_enabled s = true → returns (command_result (sigen env)) = true) →
     manual_charge_enabled s' = false) ∧
    (zappi_charging = true → is_charging s = false → already = true →
     manual_charge_enabled s' = false).
Proof.
  intros s. split.
  - subst s. unfold monitor_loop. rewrite bind_run. unfold modify at 1.
    pose proof (while_running_invariant envs (set_running true (init power interval)))
      as Hw.
    destruct (while_running envs (set_running true (init power interval)))
      as [[s2 t2] r].
    apply Hw. intros H. discriminate H.
  - intros env s1 t1 zc pw bac Hp s'. subst s'.
    destruct (iteration_decision _ _ _ _ _ _ _ Hp) as ((Hc & Ho & _) & -> & _).
    rewrite handle_state_changes_run, Hc, Ho. split.
    + intros -> Hprev Hcmd. rewrite Hprev. simpl.
      destruct (manual_charge_enabled s); [|exact Ho].
      specialize (Hcmd eq_refl).
      destruct (command_result (sigen env)); [reflexivity | discriminate].
    + intros -> Hprev ->. rewrite Hprev. reflexivity.
Qed.

(** ** The reconciliation loop: the decision table *)

(** C2. For every input (evNow, evPrev, batteryCharging) and prior
    ownership, the decision step invokes exactly the command of the
    table's row (none, enable for 30 minutes at the configured power, or
    disable) and, once that command has returned (or when the row has
    none), leaves [is_charging] at evNow and [manual_charge_enabled] at
    the row's new ownership, every other field untouched.  The step ends
    the way its command does; when the command raises, the instance is
    left as it was. *)
Theorem decision_table
    (sg : Sigen) (zappi_charging already : bool) (s : BatterySitter) :
  let row :=
    table_row zappi_charging (is_charging s) already (manual_charge_enabled s) in
  let r := handle_state_changes sg zappi_charging already s in
  commands (trace_of r) = table_command row.1 (charging_power s) ∧
  result_of r =
    match row.1 with
    | NoCommand => Returns ()
    | _ => discard (command_result sg)
    end ∧
  state_of r =
    if returns (result_of r)
    then set_manual_charge_enabled row.2 (set_is_charging zappi_charging s)
    else s.
Proof.
  intros row r. subst row r. rewrite handle_state_changes_run.
  unfold command_trace.
  destruct zappi_charging, (is_charging s) eqn:Hc, already,
    (manual_charge_enabled s) eqn:Ho, (command_result sg) as [v|e];
    simpl; repeat split; try reflexivity.
  all: try (destruct (request_sent sg); reflexivity).
  all: destruct s; unfold state_of, set_manual_charge_enabled, set_is_charging;
    simpl in *; congruence.
Qed.

(** C3. When a pass finds EV charging on while [is_charging] is still
    false, and the reported battery power is numeric and above 0, the pass
    invokes no override command, sets [is_charging] and leaves
    [manual_charge_enabled] false. *)
Theorem ev_start_while_battery_charging
    (env : tick_env) (s s1 : BatterySitter) (t1 : list event)
    (battery_power : pyval) (already : bool) :
  is_charging s = false →
  poll env s = (s1, t1, Returns (true, battery_power, already)) →
  numeric_and_positive battery_power = true →
  let r := loop_iteration env s in
  commands (trace_of r) = [] ∧
  is_charging (state_of r) = true ∧
  manual_charge_enabled (state_of r) = false.
Proof.
  intros Hprev Hp Hpos r. subst r.
  pose proof (poll_already _ _ _ _ _ _ _ Hp) as Ha. rewrite Hpos in Ha. subst already.
  destruct (iteration_decision _ _ _ _ _ _ _ Hp) as ((Hc & _) & -> & ->).
  rewrite handle_state_changes_run, Hc, Hprev. simpl. repeat split.
Qed.

(** C4. When a pass finds EV charging off while [is_charging] is still
    true: if [manual_charge_enabled] is true it invokes exactly one
    command, [set_instant_manual_charge(enable=False, duration_minutes=0,
    power_kw=0)], and once that command has returned both flags are false;
    if [manual_charge_enabled] is false it invokes no command and only
    clears [is_charging]. *)
Theorem ev_stop
    (env : tick_env) (s s1 : BatterySitter) (t1 : list event)
    (battery_power : pyval) (already : bool) :
  is_charging s = true →
  poll env s = (s1, t1, Returns (false, battery_power, already)) →
  let r := loop_iteration env s in
  (manual_charge_enabled s = true →
   commands (trace_of r) = [SetInstantManualCharge false 0 (NInt 0) "0"] ∧
   (returns (command_result (sigen env)) = true →
    manual_charge_enabled (state_of r) = false ∧ is_charging (state_of r) = false)) ∧
  (manual_charge_enabled s = false →
   commands (trace_of r) = [] ∧
   state_of r = set_is_charging false s1 ∧
   manual_charge_enabled (state_of r) = false ∧ is_charging (state_of r) = false).
Proof.
  intros Hprev Hp r. subst r.
  destruct (iteration_decision _ _ _ _ _ _ _ Hp) as ((Hc & Ho & _) & -> & ->).
  rewrite handle_state_changes_run, Hc, Ho, Hprev. simpl.
  split; intros Hown; rewrite Hown.
  - unfold command_trace.
    destruct (command_result (sigen env)), (request_sent (sigen env));
      simpl; split; try reflexivity; intros; try discriminate; by split.
  - unfold state_of. simpl. rewrite Ho, Hown. repeat split.
Qed.

(** ** The probes *)

Lemma in_charging_statuses st :
  bool_decide (st ∈ charging_statuses) = true ↔ st = "Charging" ∨ st = "Boosting".
Proof.
  rewrite bool_decide_eq_true. unfold charging_statuses.
  rewrite !elem_of_cons, elem_of_nil. tauto.
Qed.

(** C5. [get_zappi_charging_status] returns [True] exactly when the
    charger was refreshed and read without failure, its status is
    Charging or Boosting and its plug status is Charging.  When refreshing
    or reading raises an [Exception] it returns [False], and in no case
    does an [Exception] leave the method.  It calls the charger's
    [refresh] and nothing else: no control command, no request, no field
    of the instance changed. *)
Theorem charging_status_probe (z : Zappi) (s : BatterySitter) :
  let r := get_zappi_charging_status z s in
  (result_of r = Returns true ↔ zappi_failure z = None ∧ isActivelyCharging z) ∧
  (zappi_failure z = None → ∃ b, result_of r = Returns b) ∧
  (∀ cls, zappi_failure z = Some (PyException cls) → result_of r = Returns false) ∧
  (∀ cls, result_of r ≠ Raises (PyException cls)) ∧
  trace_of r = [ZappiRefresh] ∧
  commands (trace_of r) = [] ∧ puts (trace_of r) = [] ∧
  state_of r = s.
Proof.
  intros r. subst r. rewrite get_zappi_charging_status_run.
  unfold result_of, trace_of, state_of. simpl.
  split; [|split; [|split; [|split]]]; try by repeat split.
  - unfold probe_result, isActivelyCharging. split.
    + destruct (zappi_failure z) as [[cls|b]|] eqn:Hf; try discriminate.
      intros [= H]. split; [reflexivity |].
      destruct (status z) as [st|]; [|discriminate].
      destruct (plug_status z) as [p|]; [|discriminate].
      apply andb_true_iff in H as [Hst Hp].
      exists st, p. repeat split.
      * by apply in_charging_statuses.
      * by apply String.eqb_eq.
    + intros [-> (st & p & -> & -> & Hst & ->)].
      apply in_charging_statuses in Hst. rewrite Hst. reflexivity.
  - unfold probe_result. intros ->. eauto.
  - unfold probe_result. by intros cls ->.
  - unfold probe_result. intros cls.
    destruct (zappi_failure z) as [[]|]; discriminate.
Qed.

(** C9. Whatever the snapshot holds under [batteryPower],
    [battery_already_charging] is evaluated without raising, and is true
    exactly when that value is an [int] or [float] above 0.  A value of
    any other type, a snapshot with no such entry, and the empty snapshot
    that [get_battery_info] hands back when the telemetry call raises or
    answers [None], all make it false; the pass then goes on to its
    decision with [battery_already_charging] false. *)
Theorem battery_already_charging_iff_numeric_positive :
  (∀ v s, battery_already_charging v s = (s, [], Returns (numeric_and_positive v))) ∧
  (∀ v, numeric_and_positive v = true ↔
        isinstance_int_float v = true ∧ py_gt_zero v = Returns true) ∧
  (∀ v, isinstance_int_float v = false → numeric_and_positive v = false) ∧
  (∀ d : gmap string pyval,
     d !! "batteryPower" = None → numeric_and_positive (reported_power d) = false) ∧
  (∀ sg s,
     get_energy_flow sg = Returns PNone ∨
     (∃ cls, get_energy_flow sg = Raises (PyException cls)) →
     get_battery_info sg s = (s, [SigenGetEnergyFlow], Returns (PDict ∅))) ∧
  (∀ env s s1 t1 zappi_charging battery_power already,
     poll env s = (s1, t1, Returns (zappi_charging, battery_power, already)) →
     already = numeric_and_positive battery_power ∧
     ∃ d, snapshot_result (sigen env) = Returns (PDict d) ∧
          battery_power = reported_power d) ∧
  (∀ env s zappi_charging,
     get_energy_flow (sigen env) = Returns PNone ∨
     (∃ cls, get_energy_flow (sigen env) = Raises (PyException cls)) →
     result_of (reconnect_if_due env s) = Returns () →
     probe_result (zappi env) = Returns zappi_charging →
     result_of (poll env s) = Returns (zappi_charging, PStr "N/A", false)).
Proof.
  split; [exact battery_already_charging_run |].
  split.
  { intros v. destruct v; simpl; split; try intros [? ?]; try intros ?;
      try discriminate; try (split; congruence); congruence. }
  split; [by intros []|].
  split; [intros d Hd; unfold reported_power; by rewrite Hd |].
  split.
  { intros sg s H. rewrite get_battery_info_run. unfold snapshot_result.
    destruct H as [-> | [cls ->]]; reflexivity. }
  split.
  { intros env s s1 t1 zc pw bac Hp. split; [eapply poll_already; eassumption |].
    rewrite poll_run in Hp.
    destruct (result_of (reconnect_if_due env s)); [|discriminate].
    destruct (probe_result (zappi env)); [|discriminate].
    destruct (snapshot_result (sigen env)) as [[]|]; try discriminate.
    simpl in Hp. injection Hp as _ _ _ <- _. eauto. }
  intros env s zc H Hr Hz. rewrite poll_run, Hr, Hz. unfold snapshot_result.
  destruct H as [-> | [cls ->]]; reflexivity.
Qed.

(** C10. A [batteryPower] of [True] passes the [isinstance] test and
    counts as already charging, exactly as the integer 1 does; [False]
    passes the test too and counts as not charging, exactly as 0 does. *)
Theorem boolean_power_is_numeric :
  (∀ b, isinstance_int_float (PBool b) = true) ∧
  (∀ s, battery_already_charging (PBool true) s = (s, [], Returns true)) ∧
  (∀ s, battery_already_charging (PBool false) s = (s, [], Returns false)) ∧
  (∀ s, battery_already_charging (PBool true) s = battery_already_charging (PInt 1) s) ∧
  (∀ s, battery_already_charging (PBool false) s = battery_already_charging (PInt 0) s) ∧
  (∀ d : gmap string pyval,
     d !! "batteryPower" = Some (PBool true) →
     numeric_and_positive (reported_power d) = true).
Proof.
  repeat split.
  intros d Hd. unfold reported_power. by rewrite Hd.
Qed.

(** ** The override controller *)

(** C6. A call [set_instant_manual_charge(enable, duration_minutes,
    power_kw)] sends at most one request, and none unless the token
    refresh and the opening of the session got through; the request is a
    PUT to the base URL followed by device/energy-profile/instant/manunal,
    with the session's headers and the JSON body of exactly the five
    entries enable, stationId, mode "0", duration [str(duration_minutes)]
    and powerLimitation [str(power_kw)].  The call ends as its first
    failing step does: what that step raised is raised to the caller.  No
    field of the instance changes. *)
Theorem manual_charge_request
    (sg : Sigen) (enable : bool) (duration_minutes : Z) (power_kw : number)
    (s : BatterySitter) :
  let r := set_instant_manual_charge sg enable duration_minutes power_kw default_mode s in
  let request :=
    HttpPut (BASE_URL sg +:+ "device/energy-profile/instant/manunal") (headers sg)
      {[ "enable" := PBool enable;
         "stationId" := station_id sg;
         "mode" := PStr "0";
         "duration" := PStr (pretty duration_minutes);
         "powerLimitation" := PStr (py_str power_kw) ]} in
  puts (trace_of r) = (if request_sent sg then [request] else []) ∧
  (∀ e, ensure_valid_token sg = Raises e → result_of r = Raises e) ∧
  (∀ e, ensure_valid_token sg = Returns () → client_session sg = Raises e →
        result_of r = Raises e) ∧
  (∀ e, request_sent sg = true → put_response sg = Raises e →
        result_of r = Raises e) ∧
  (∀ e, request_sent sg = true → put_response sg = Returns (Raises e) →
        result_of r = Raises e) ∧
  (∀ v, request_sent sg = true → put_response sg = Returns (Returns v) →
        result_of r = Returns v) ∧
  state_of r = s.
Proof.
  intros r request. subst r request. rewrite set_instant_manual_charge_run.
  unfold result_of, trace_of, state_of, command_trace, command_result, request_sent.
  simpl.
  split; [by destruct (ensure_valid_token sg), (client_session sg) |].
  split; [by intros e -> |].
  split; [by intros e -> -> |].
  split; [|split; [|split; [|reflexivity]]].
  all: intros x Hs ->.
  all: by destruct (ensure_valid_token sg), (client_session sg).
Qed.

(** ** Failure containment *)

Lemma commands_command_trace sg enable duration_minutes power_kw mode :
  commands (command_trace sg enable duration_minutes power_kw mode) =
    [SetInstantManualCharge enable duration_minutes power_kw mode].
Proof. unfold command_trace. destruct (request_sent sg); reflexivity. Qed.

(** How a pass whose probes return ends. *)
Lemma iteration_result env s s1 t1 zappi_charging battery_power already :
  poll env s = (s1, t1, Returns (zappi_charging, battery_power, already)) →
  result_of (tick env s) =
    match result_of (handle_state_changes (sigen env) zappi_charging already s1) with
    | Returns _ => sleep_result env
    | Raises e => Raises e
    end.
Proof.
  intros Hp. rewrite tick_run, Hp.
  destruct (handle_state_changes (sigen env) zappi_charging already s1)
    as [[s2 t2] [[]|e]]; reflexivity.
Qed.

(** C7. Take a pass in which the override command is invoked and raises.
    Then [is_charging] and [manual_charge_enabled] are, after the pass,
    what they were before it; the command was invoked once in that pass;
    if what it raised is an [Exception] and the sleep is not interrupted,
    the pass ends normally and the loop goes on; and a next pass whose
    probes give the same two readings invokes the same command again. *)
Theorem command_failure_leaves_ownership
    (env : tick_env) (s s1 : BatterySitter) (t1 : list event)
    (zappi_charging : bool) (battery_power : pyval) (already : bool) (e : exn) :
  poll env s = (s1, t1, Returns (zappi_charging, battery_power, already)) →
  commands (trace_of (loop_iteration env s)) ≠ [] →
  command_result (sigen env) = Raises e →
  let r := loop_iteration env s in
  is_charging (state_of r) = is_charging s ∧
  manual_charge_enabled (state_of r) = manual_charge_enabled s ∧
  length (commands (trace_of r)) = 1%nat ∧
  (∀ cls, e = PyException cls → sleep_reply env = None →
          result_of r = Returns Continue) ∧
  ∀ env' s1' t1' battery_power',
    poll env' (state_of r) =
      (s1', t1', Returns (zappi_charging, battery_power', already)) →
    commands (trace_of (loop_iteration env' (state_of r))) = commands (trace_of r).
Proof.
  intros Hp Hcmd He r. subst r.
  pose proof (iteration_result _ _ _ _ _ _ _ Hp) as Hres.
  destruct (iteration_decision _ _ _ _ _ _ _ Hp) as ((Hc & Ho & _ & Hw & _) & Hs & Ht).
  rewrite Ht in Hcmd.
  assert (Hrun :
    state_of (handle_state_changes (sigen env) zappi_charging already s1) = s1 ∧
    result_of (handle_state_changes (sigen env) zappi_charging already s1) = Raises e ∧
    ∃ c, commands (trace_of
           (handle_state_changes (sigen env) zappi_charging already s1)) = [c] ∧
         ∀ sg' s', is_charging s' = is_charging s1 →
           manual_charge_enabled s' = manual_charge_enabled s1 →
           charging_power s' = charging_power s1 →
           commands (trace_of
             (handle_state_changes sg' zappi_charging already s')) = [c]).
  { revert Hcmd. rewrite handle_state_changes_run, He.
    destruct zappi_charging, (is_charging s1) eqn:Hc1, already,
      (manual_charge_enabled s1) eqn:Ho1; cbn [andb negb]; intros Hcmd;
      try (exfalso; apply Hcmd; reflexivity).
    all: split; [reflexivity |]; split; [reflexivity |].
    all: unfold trace_of; cbn [fst snd]; rewrite commands_command_trace.
    all: eexists; split; [reflexivity |].
    all: intros sg' s' Hc' Ho' Hw'; rewrite handle_state_changes_run, Hc', Ho', Hw'.
    all: cbn [andb negb]; destruct (command_result sg'); cbn [fst snd];
      apply commands_command_trace. }
  destruct Hrun as (Hst & Hrs & c & Hone & Hnext).
  rewrite Hs, Ht, Hst, Hone.
  split; [exact Hc |]. split; [exact Ho |].
  split; [reflexivity |]. split.
  - intros cls -> Hsleep. rewrite loop_iteration_run, Hres, Hrs.
    unfold result_of at 1. simpl. by rewrite Hsleep.
  - intros env' s1' t1' pw' Hp'.
    destruct (iteration_decision _ _ _ _ _ _ _ Hp') as ((Hc' & Ho' & _ & Hw' & _) & _ & ->).
    by apply Hnext.
Qed.

(** ** Resilience of the loop *)







Lemma while_running_cons env rest s :
  running s = true →
  while_running (env :: rest) s =
    match loop_iteration env s with
    | (s1, t1, Returns Continue) =>
        (state_of (while_running rest s1),
         t1 ++ trace_of (while_running rest s1),
         result_of (while_running rest s1))
    | (s1, t1, Returns Break) => (s1, t1 ++ [], Returns Left_loop)
    | (s1, t1, Raises e) => (s1, t1, Raises e)
    end.
Proof.
  intros Hrun. cbn [while_running]. rewrite bind_run. unfold get at 1.
  rewrite Hrun, bind_run.
  destruct (loop_iteration env s) as [[s1 t1] [[]|e]]; try reflexivity.
  destruct (while_running rest s1) as [[s2 t2] r2]. reflexivity.
Qed.

Lemma monitor_loop_run envs s :
  monitor_loop envs s = while_running envs (set_running true s).
Proof.
  unfold monitor_loop. rewrite bind_run. unfold modify.
  destruct (while_running envs (set_running true s)) as [[s2 t2] r2].
  reflexivity.
Qed.



(** ** Beyond the decision table: what a pass does and never does *)

(** What the decision was fed, read back from a pass whose probes
    returned. *)
Lemma poll_returns env s s1 t1 zappi_charging battery_power already :
  poll env s = (s1, t1, Returns (zappi_charging, battery_power, already)) →
  result_of (reconnect_if_due env s) = Returns () ∧
  s1 = state_of (reconnect_if_due env s) ∧
  t1 = trace_of (reconnect_if_due env s) ++ [ZappiRefresh; SigenGetEnergyFlow] ∧
  probe_result (zappi env) = Returns zappi_charging ∧
  ∃ d, snapshot_result (sigen env) = Returns (PDict d) ∧
       battery_power = reported_power d ∧
       already = numeric_and_positive (reported_power d).
Proof.
  rewrite poll_run.
  destruct (result_of (reconnect_if_due env s)) as [[]|]; [|discriminate].
  destruct (probe_result (zappi env)); [|discriminate].
  destruct (snapshot_result (sigen env)) as [[]|]; try discriminate.
  simpl. intros [= <- <- <- <- <-]. repeat split. eauto.
Qed.

(** The commands of a pass, and what they say about ownership. *)
Lemma pass_commands env s :
  let c := commands (trace_of (loop_iteration env s)) in
  let s' := state_of (loop_iteration env s) in
  (c = [] ∧ (manual_charge_enabled s' = true → manual_charge_enabled s = true)) ∨
  c = [enable_command (charging_power s)] ∨
  (c = [disable_command] ∧ manual_charge_enabled s = true).
Proof.
  intros c s'. subst c s'.
  destruct (poll env s) as [[s1 t1] [[[zc pw] bac]|e]] eqn:Hp.
  - destruct (iteration_decision _ _ _ _ _ _ _ Hp) as ((Hc & Ho & _ & Hw & _) & -> & ->).
    rewrite handle_state_changes_run, <- Ho, <- Hw.
    destruct zc, (is_charging s1), bac, (manual_charge_enabled s1) eqn:Ho1,
      (command_result (sigen env));
      cbn [andb negb]; rewrite ?trace_of_run, ?commands_command_trace;
      unfold state_of; simpl; rewrite ?Ho1; auto.
  - destruct (iteration_undecided env s e) as [(_ & Ho & _) Hc]; [by rewrite Hp |].
    left. split; [exact Hc | by rewrite Ho].
Qed.

(** X1. Whatever the outside answers, a pass invokes at most one control
    command, and that command is either the enabling one (30 minutes at
    the configured power) or the disabling one (zeros); the disabling one
    is invoked only by an instance that holds the ownership flag. *)
Theorem at_most_one_command_per_pass (env : tick_env) (s : BatterySitter) :
  (length (commands (trace_of (loop_iteration env s))) ≤ 1)%nat ∧
  (∀ ev, ev ∈ commands (trace_of (loop_iteration env s)) →
         ev = enable_command (charging_power s) ∨
         (ev = disable_command ∧ manual_charge_enabled s = true)).
Proof.
  destruct (pass_commands env s) as [[-> _] | [-> | [-> Ho]]]; simpl.
  - split; [lia |]. intros ev Hev. by apply elem_of_nil in Hev.
  - split; [lia |]. intros ev Hev. apply list_elem_of_singleton in Hev. by left.
  - split; [lia |]. intros ev Hev. apply list_elem_of_singleton in Hev. by right.
Qed.

(** The whole trace of a pass whose probes returned. *)
Lemma pass_trace env s s1 t1 zappi_charging battery_power already :
  poll env s = (s1, t1, Returns (zappi_charging, battery_power, already)) →
  ∃ rest,
    trace_of (loop_iteration env s) =
      trace_of (reconnect_if_due env s) ++ [ZappiRefresh; SigenGetEnergyFlow] ++
      trace_of (handle_state_changes (sigen env) zappi_charging already s1) ++ rest ∧
    commands rest = [].
Proof.
  intros Hp. destruct (poll_returns _ _ _ _ _ _ _ Hp) as (_ & _ & -> & _).
  rewrite loop_iteration_run, tick_run, Hp.
  destruct (handle_state_changes (sigen env) zappi_charging already s1)
    as [[s2 t2] [[]|[cls|b]]];
    cbv zeta; unfold state_of, trace_of, result_of, sleep_result; cbn [fst snd].
  - exists [Sleep (poll_interval s2)].
    destruct (sleep_reply env) as [[]|]; cbn [fst snd];
      rewrite <- ?app_assoc; by split.
  - exists [Sleep (poll_interval s2)]. rewrite <- ?app_assoc. by split.
  - exists []. destruct b; cbn [fst snd]; rewrite <- ?app_assoc, ?app_nil_r;
      by split.
Qed.

(** X2. A control command is never invoked ahead of the status reads: in
    a pass that invokes one, the calls up to it end with the charger
    refresh and the telemetry read of that same pass, in this order, with
    no command before them and none after it. *)
Theorem command_follows_both_probes (env : tick_env) (s : BatterySitter) :
  commands (trace_of (loop_iteration env s)) ≠ [] →
  ∃ before c after,
    trace_of (loop_iteration env s) =
      before ++ [ZappiRefresh; SigenGetEnergyFlow; c] ++ after ∧
    is_command c = true ∧ commands before = [] ∧ commands after = [].
Proof.
  intros Hcmd.
  destruct (poll env s) as [[s1 t1] [[[zc pw] bac]|e]] eqn:Hp.
  - destruct (pass_trace _ _ _ _ _ _ _ Hp) as (rest & Ht & Hrest).
    destruct (iteration_decision _ _ _ _ _ _ _ Hp) as (_ & _ & Hc).
    rewrite Hc in Hcmd. rewrite Ht.
    destruct (reconnect_if_due_quiet env s) as (_ & Hq & _).
    exists (trace_of (reconnect_if_due env s)).
    revert Hcmd. rewrite handle_state_changes_run.
    destruct zc, (is_charging s1), bac, (manual_charge_enabled s1),
      (command_result (sigen env));
      cbn [andb negb]; rewrite ?trace_of_run; intros Hcmd;
      try (exfalso; apply Hcmd; reflexivity).
    all: unfold command_trace; eexists _, _; split; [reflexivity |].
    all: split; [reflexivity |]; split; [exact Hq |].
    all: destruct (request_sent (sigen env)); unfold commands in *; simpl;
      exact Hrest.
  - destruct (iteration_undecided env s e) as [_ Hc]; [by rewrite Hp |].
    contradiction.
Qed.

(** X3. A failure to refresh or read the charger reads as "not
    charging": while [is_charging] and the ownership flag are set, such a
    pass invokes the disabling command, exactly as if EV charging had
    stopped, and clears both flags once that command has returned. *)
Theorem charger_read_error_reads_as_stop
    (env : tick_env) (s s1 : BatterySitter) (t1 : list event)
    (zappi_charging : bool) (battery_power : pyval) (already : bool) (cls : string) :
  zappi_failure (zappi env) = Some (PyException cls) →
  poll env s = (s1, t1, Returns (zappi_charging, battery_power, already)) →
  is_charging s = true →
  manual_charge_enabled s = true →
  zappi_charging = false ∧
  commands (trace_of (loop_iteration env s)) = [disable_command] ∧
  (returns (command_result (sigen env)) = true →
   is_charging (state_of (loop_iteration env s)) = false ∧
   manual_charge_enabled (state_of (loop_iteration env s)) = false).
Proof.
  intros Hfail Hp Hprev Hown.
  destruct (poll_returns _ _ _ _ _ _ _ Hp) as (_ & _ & _ & Hz & _).
  unfold probe_result in Hz. rewrite Hfail in Hz. injection Hz as <-.
  split; [reflexivity |].
  destruct (iteration_decision _ _ _ _ _ _ _ Hp) as ((Hc & Ho & _) & -> & ->).
  rewrite handle_state_changes_run, Hc, Ho, Hprev, Hown. cbn [andb negb].
  destruct (command_result (sigen env)); rewrite trace_of_run, commands_command_trace;
    (split; [reflexivity |]); [by intros _ | discriminate].
Qed.

(** X4. While the EV charges, a telemetry read that raises or answers
    [None] is taken for a battery that is not charging: the reported power
    is the string N/A, and the pass invokes the enabling command, whether
    or not the override was already owned. *)
Theorem telemetry_outage_takes_control
    (env : tick_env) (s s1 : BatterySitter) (t1 : list event)
    (battery_power : pyval) (already : bool) :
  get_energy_flow (sigen env) = Returns PNone ∨
  (∃ cls, get_energy_flow (sigen env) = Raises (PyException cls)) →
  poll env s = (s1, t1, Returns (true, battery_power, already)) →
  battery_power = PStr "N/A" ∧ already = false ∧
  commands (trace_of (loop_iteration env s)) = [enable_command (charging_power s)].
Proof.
  intros Hout Hp.
  destruct (poll_returns _ _ _ _ _ _ _ Hp) as (_ & _ & _ & _ & d & Hd & -> & ->).
  assert (d = ∅) as ->.
  { unfold snapshot_result in Hd.
    destruct Hout as [Hn | [cls Hn]]; rewrite Hn in Hd; by injection Hd. }
  split; [reflexivity |]. split; [reflexivity |].
  destruct (iteration_decision _ _ _ _ _ _ _ Hp) as ((_ & _ & _ & Hw & _) & _ & ->).
  rewrite handle_state_changes_run, Hw.
  change (numeric_and_positive (reported_power ∅)) with false.
  destruct (is_charging s1), (command_result (sigen env)); cbn [andb negb];
    rewrite trace_of_run; apply commands_command_trace.
Qed.

(** X5. A telemetry answer that is neither [None] nor a dictionary ends
    the pass before its decision, in an [AttributeError] unless something
    was raised earlier: no command is invoked and the two flags stay as
    they were. *)
Theorem malformed_snapshot_aborts_pass
    (env : tick_env) (s : BatterySitter) (v : pyval) :
  get_energy_flow (sigen env) = Returns v →
  not_a_snapshot v = true →
  (∃ e, result_of (tick env s) = Raises e) ∧
  (result_of (reconnect_if_due env s) = Returns () →
   returns (probe_result (zappi env)) = true →
   result_of (tick env s) = Raises (PyException "AttributeError")) ∧
  commands (trace_of (loop_iteration env s)) = [] ∧
  is_charging (state_of (loop_iteration env s)) = is_charging s ∧
  manual_charge_enabled (state_of (loop_iteration env s)) = manual_charge_enabled s.
Proof.
  intros Hflow Hbad.
  assert (Hres : (∃ e, result_of (poll env s) = Raises e) ∧
                 (result_of (reconnect_if_due env s) = Returns () →
                  returns (probe_result (zappi env)) = true →
                  result_of (poll env s) = Raises (PyException "AttributeError"))).
  { rewrite poll_run. unfold snapshot_result. rewrite Hflow.
    destruct (result_of (reconnect_if_due env s)) as [[]|e0];
      [|split; [eauto | discriminate]].
    destruct (probe_result (zappi env)) as [zc|e0];
      [|split; [eauto | discriminate]].
    destruct v; try discriminate; split; eauto. }
  destruct Hres as [[e He] Hattr].
  assert (Ht : ∀ e', result_of (poll env s) = Raises e' →
                     result_of (tick env s) = Raises e').
  { intros e'. rewrite tick_run.
    destruct (poll env s) as [[s1 t1] [a|e0]]; [discriminate |].
    rewrite !result_of_run. by intros [= ->]. }
  destruct (iteration_undecided env s e He) as [(Hc & Ho & _) Hcmd].
  split; [eauto |]. split; [intros H1 H2; apply Ht; by apply Hattr |].
  by repeat split.
Qed.

(** X6. Round trip.  From an instance with both flags clear, a pass that
    finds the EV charging and the battery not, and whose command returns,
    followed by a pass that finds the EV no longer charging and whose
    command returns, invokes the enabling and then the disabling command
    and nothing else, and leaves both flags clear again; in between both
    are set. *)
Theorem start_stop_round_trip
    (env1 env2 : tick_env) (s sa sb : BatterySitter) (ta tb : list event)
    (pa pb : pyval) (bb : bool) :
  is_charging s = false →
  manual_charge_enabled s = false →
  poll env1 s = (sa, ta, Returns (true, pa, false)) →
  returns (command_result (sigen env1)) = true →
  poll env2 (state_of (loop_iteration env1 s)) = (sb, tb, Returns (false, pb, bb)) →
  returns (command_result (sigen env2)) = true →
  is_charging (state_of (loop_iteration env1 s)) = true ∧
  manual_charge_enabled (state_of (loop_iteration env1 s)) = true ∧
  commands (trace_of (loop_iteration env1 s)) ++
    commands (trace_of (loop_iteration env2 (state_of (loop_iteration env1 s)))) =
    [enable_command (charging_power s); disable_command] ∧
  is_charging (state_of (loop_iteration env2 (state_of (loop_iteration env1 s)))) = false ∧
  manual_charge_enabled
    (state_of (loop_iteration env2 (state_of (loop_iteration env1 s)))) = false.
Proof.
  intros Hc0 Ho0 Hp1 Hok1 Hp2 Hok2.
  destruct (iteration_decision _ _ _ _ _ _ _ Hp1) as ((Hc & Ho & _ & Hw & _) & Hs1 & Ht1).
  assert (H1 : is_charging (state_of (loop_iteration env1 s)) = true ∧
               manual_charge_enabled (state_of (loop_iteration env1 s)) = true ∧
               commands (trace_of (loop_iteration env1 s)) =
                 [enable_command (charging_power s)]).
  { rewrite Hs1, Ht1, handle_state_changes_run, Hc, Hc0, Hw. cbn [andb negb].
    destruct (command_result (sigen env1)); [|discriminate].
    rewrite trace_of_run, commands_command_trace. by repeat split. }
  destruct H1 as (Hc1 & Ho1 & Hcmd1).
  destruct (iteration_decision _ _ _ _ _ _ _ Hp2) as ((Hc' & Ho' & _) & Hs2 & Ht2).
  rewrite Hc1 in Hc'. rewrite Ho1 in Ho'.
  split; [exact Hc1 |]. split; [exact Ho1 |].
  rewrite Hcmd1, Hs2, Ht2, handle_state_changes_run, Hc', Ho'. cbn [andb negb].
  destruct (command_result (sigen env2)); [|discriminate].
  rewrite trace_of_run, commands_command_trace. by repeat split.
Qed.

(** ** Periodic reconnection *)

Lemma connects_app (t1 t2 : list event) :
  connects (t1 ++ t2) = connects t1 ++ connects t2.
Proof. apply List.filter_app. Qed.

(** The first statement of the loop body, in closed form. *)
Lemma reconnect_if_due_run env s :
  reconnect_if_due env s =
    if reconnect_due env s then
      match connect_reply env with
      | Returns t => (set_last_connection_time (Some t) s, [Connect], Returns ())
      | Raises e => (s, [Connect], Raises e)
      end
    else (s, [], Returns ()).
Proof.
  unfold reconnect_if_due, reconnect_due, connect. rewrite bind_run. unfold get.
  destruct (last_connection_time s) as [t|]; [|reflexivity].
  case_bool_decide; [|reflexivity].
  rewrite bind_run. unfold call, modify.
  destruct (connect_reply env); reflexivity.
Qed.

(** What a pass does after its first statement calls no [connect]. *)
Lemma pass_after_reconnect env s :
  ∃ tail,
    trace_of (loop_iteration env s) = trace_of (reconnect_if_due env s) ++ tail ∧
    connects tail = [] ∧
    (result_of (reconnect_if_due env s) ≠ Returns () →
     tail = [] ∨ tail = [Sleep (poll_interval s)]).
Proof.
  assert (Hh : ∀ zc bac s1,
            connects (trace_of (handle_state_changes (sigen env) zc bac s1)) = []).
  { intros zc bac s1. rewrite handle_state_changes_run. unfold command_trace.
    destruct zc, (is_charging s1), bac, (manual_charge_enabled s1),
      (command_result (sigen env)), (request_sent (sigen env)); reflexivity. }
  assert (Hint : poll_interval (state_of (reconnect_if_due env s)) = poll_interval s).
  { by destruct (reconnect_if_due_quiet env s) as ((_ & _ & _ & _ & ?) & _). }
  rewrite loop_iteration_run, tick_run, poll_run. cbv zeta.
  destruct (result_of (reconnect_if_due env s)) as [[]|e].
  - destruct (probe_result (zappi env)) as [zc|e].
    + destruct (snapshot_result (sigen env)) as [v|e].
      * destruct v.
        7:{ specialize (Hh zc (numeric_and_positive (reported_power d))
                         (state_of (reconnect_if_due env s))).
            destruct (handle_state_changes (sigen env) zc
                        (numeric_and_positive (reported_power d))
                        (state_of (reconnect_if_due env s)))
              as [[s2 t2] [[]|[cls|[]]]];
              cbv zeta; unfold state_of, trace_of, result_of, sleep_result in *;
              cbn [fst snd] in *;
              try (destruct (sleep_reply env) as [[]|]; cbn [fst snd]);
              rewrite <- ?app_assoc; eexists; (split; [reflexivity |]);
              (split; [|by intros []]);
              rewrite ?connects_app, ?Hh; reflexivity. }
        all: cbv zeta; unfold state_of, trace_of, result_of; cbn [fst snd];
          rewrite <- ?app_assoc; eexists; (split; [reflexivity |]);
          (split; [reflexivity | by intros []]).
      * destruct e as [cls|[]];
          cbv zeta; unfold state_of, trace_of, result_of; cbn [fst snd];
          rewrite <- ?app_assoc; eexists; (split; [reflexivity |]);
          (split; [reflexivity | by intros []]).
    + destruct e as [cls|[]];
        cbv zeta; unfold state_of, trace_of, result_of; cbn [fst snd];
        rewrite <- ?app_assoc; eexists; (split; [reflexivity |]);
        (split; [reflexivity | by intros []]).
  - destruct e as [cls|[]];
      cbv zeta; rewrite ?state_of_run, ?result_of_run, ?trace_of_run;
      [exists [Sleep (poll_interval s)] | exists [] ..];
      rewrite ?app_nil_r, ?Hint; (split; [reflexivity |]); split; auto.
Qed.

(** The stamp after a pass. *)
Lemma pass_clock env s :
  last_connection_time (state_of (loop_iteration env s)) =
    last_connection_time (state_of (reconnect_if_due env s)).
Proof.
  assert (Hh : ∀ zc bac s1,
            last_connection_time (state_of (handle_state_changes (sigen env) zc bac s1)) =
            last_connection_time s1).
  { intros zc bac s1. rewrite handle_state_changes_run.
    destruct zc, (is_charging s1), bac, (manual_charge_enabled s1),
      (command_result (sigen env)); reflexivity. }
  rewrite loop_iteration_state, tick_run, poll_run. cbv zeta.
  destruct (result_of (reconnect_if_due env s)) as [[]|e]; [|reflexivity].
  destruct (probe_result (zappi env)) as [zc|e]; [|reflexivity].
  destruct (snapshot_result (sigen env)) as [[]|e]; try reflexivity.
  specialize (Hh zc (numeric_and_positive (reported_power d))
                (state_of (reconnect_if_due env s))).
  destruct (handle_state_changes (sigen env) zc
              (numeric_and_positive (reported_power d))
              (state_of (reconnect_if_due env s))) as [[s2 t2] [[]|e]];
    exact Hh.
Qed.

(** X7. A pass reconnects exactly when a connection was stamped and at
    least eight hours lie between that stamp and the pass (eight hours to
    the microsecond included); an instance that was never connected is
    never reconnected.  The reconnection, when there is one, is the first
    call of the pass and the only one. *)
Theorem reconnect_exactly_when_due (env : tick_env) (s : BatterySitter) :
  (connects (trace_of (loop_iteration env s)) = [Connect] ↔
   ∃ t, last_connection_time s = Some t ∧ 8 * 3600 * 1000000 ≤ now env - t) ∧
  (connects (trace_of (loop_iteration env s)) = [] ↔
   last_connection_time s = None ∨
   ∃ t, last_connection_time s = Some t ∧ now env - t < 8 * 3600 * 1000000) ∧
  (connects (trace_of (loop_iteration env s)) ≠ [] →
   ∃ rest, trace_of (loop_iteration env s) = Connect :: rest).
Proof.
  destruct (pass_after_reconnect env s) as (tail & -> & Htail & _).
  rewrite connects_app, Htail, app_nil_r, reconnect_if_due_run.
  unfold reconnect_due, reconnect_interval.
  destruct (last_connection_time s) as [t|].
  - case_bool_decide as Hdue.
    + destruct (connect_reply env); rewrite !trace_of_run; simpl.
      all: split; [split; [eauto | done] |].
      all: split; [split; [done | intros [? | (t' & [= <-] & ?)]; [done | lia]] |].
      all: eauto.
    + rewrite !trace_of_run. simpl.
      split; [split; [done | intros (t' & [= <-] & ?); lia] |].
      split; [split; [intros _; right; exists t; split; [done | lia] | done] |].
      done.
  - rewrite !trace_of_run. simpl.
    split; [split; [done | by intros (t' & ? & _)] |].
    split; [split; [by left | done] | done].
Qed.


(** X9. A reconnection that gets through stamps its own time, which the
    rest of the pass keeps; no pass within eight hours of that stamp
    reconnects. *)
Theorem reconnect_resets_clock (env : tick_env) (s : BatterySitter) (t' : Z) :
  reconnect_due env s = true →
  connect_reply env = Returns t' →
  last_connection_time (state_of (loop_iteration env s)) = Some t' ∧
  ∀ env', now env' - t' < 8 * 3600 * 1000000 →
          connects (trace_of (loop_iteration env' (state_of (loop_iteration env s)))) = [].
Proof.
  intros Hdue Hreply.
  assert (Hclock : last_connection_time (state_of (loop_iteration env s)) = Some t').
  { rewrite pass_clock, reconnect_if_due_run, Hdue, Hreply. reflexivity. }
  split; [exact Hclock |].
  intros env' Hsoon.
  destruct (pass_after_reconnect env' (state_of (loop_iteration env s)))
    as (tail & -> & Htail & _).
  rewrite connects_app, Htail, app_nil_r, reconnect_if_due_run.
  unfold reconnect_due. rewrite Hclock.
  rewrite bool_decide_eq_false_2; [reflexivity |].
  unfold reconnect_interval. lia.
Qed.

(** ** Ownership over a whole run *)

Lemma while_running_stopped envs s :
  running s = false → while_running envs s = (s, [], Returns Left_loop).
Proof.
  intros Hrun. destruct envs as [|env rest]; simpl; [by rewrite Hrun |].
  rewrite bind_run. unfold get at 1. by rewrite Hrun.
Qed.

(** Over any number of passes: a disabling command comes after an
    enabling one unless the run started with the ownership flag set, and
    the flag is set at the end only if it was at the start or an enabling
    command was invoked. *)
Lemma while_running_history envs s :
  let r := while_running envs s in
  (∀ pre ev post,
     commands (trace_of r) = pre ++ ev :: post → is_disable ev = true →
     manual_charge_enabled s = true ∨ Exists (λ e, is_enable e = true) pre) ∧
  (manual_charge_enabled (state_of r) = true →
   manual_charge_enabled s = true ∨
   Exists (λ e, is_enable e = true) (commands (trace_of r))).
Proof.
  revert s. induction envs as [|env rest IH]; intros s r; subst r.
  { simpl. split; [|by left]. intros pre ev post H. by destruct pre. }
  destruct (running s) eqn:Hrun.
  2:{ rewrite (while_running_stopped _ _ Hrun), state_of_run, trace_of_run.
      split; [intros pre ev post H; by destruct pre | by left]. }
  rewrite (while_running_cons _ _ _ Hrun).
  pose proof (pass_commands env s) as Hpass. cbv zeta in Hpass.
  destruct (loop_iteration env s) as [[s1 t1] [[]|e]];
    rewrite ?state_of_run, ?trace_of_run in *.
  - specialize (IH s1). cbv zeta in IH. destruct IH as [IHd IHo].
    rewrite commands_app.
    destruct Hpass as [[-> Hkeep] | [-> | [-> Hown]]]; cbn [app].
    + split.
      * intros pre ev post H Hd.
        destruct (IHd pre ev post H Hd) as [?|?]; auto.
      * intros Ho. destruct (IHo Ho) as [?|?]; auto.
    + split.
      * intros pre ev post H Hd. right.
        destruct pre as [|e0 pre]; simplify_eq/=; try discriminate.
        by apply Exists_cons_hd.
      * intros _. right. by apply Exists_cons_hd.
    + split; intros; by left.
  - rewrite app_nil_r.
    destruct Hpass as [[-> Hkeep] | [-> | [-> Hown]]].
    + split; [intros pre ev post H; by destruct pre | auto].
    + split.
      * intros pre ev post H Hd. destruct pre as [|e0 [|]]; simplify_eq/=;
          discriminate.
      * intros _. right. by apply Exists_cons_hd.
    + split; intros; by left.
  - destruct Hpass as [[-> Hkeep] | [-> | [-> Hown]]].
    + split; [intros pre ev post H; by destruct pre | auto].
    + split.
      * intros pre ev post H Hd. destruct pre as [|e0 [|]]; simplify_eq/=;
          discriminate.
      * intros _. right. by apply Exists_cons_hd.
    + split; intros; by left.
Qed.

(** X10. In a run of the loop from a freshly constructed instance, every
    disabling command is preceded by an enabling command of the same run:
    the loop never disables an override it has not tried to enable.  And
    the run ends with the ownership flag set only if it invoked an
    enabling command. *)
Theorem no_disable_without_enable
    (power : number) (interval : Z) (envs : list tick_env) :
  let r := monitor_loop envs (init power interval) in
  (∀ pre ev post,
     commands (trace_of r) = pre ++ ev :: post → is_disable ev = true →
     Exists (λ e, is_enable e = true) pre) ∧
  (manual_charge_enabled (state_of r) = true →
   Exists (λ e, is_enable e = true) (commands (trace_of r))).
Proof.
  intros r. subst r. rewrite monitor_loop_run.
  destruct (while_running_history envs (set_running true (init power interval)))
    as [Hd Ho].
  split.
  - intros pre ev post H Hdis. by destruct (Hd pre ev post H Hdis).
  - intros Hown. by destruct (Ho Hown).
Qed.

(** ** Shutting down *)

(** What [shutdown] leaves behind. *)
Lemma shutdown_disables_state sg s :
  running (state_of (shutdown sg s)) = false ∧
  commands (trace_of (shutdown sg s)) =
    (if manual_charge_enabled s then [disable_command] else []) ∧
  manual_charge_enabled (state_of (shutdown sg s)) =
    manual_charge_enabled s && negb (returns (command_result sg)).
Proof.
  rewrite shutdown_run. cbv zeta.
  destruct (manual_charge_enabled s) eqn:Ho.
  - destruct (command_result sg) as [|[]];
      rewrite trace_of_run, state_of_run, commands_command_trace;
      simpl; rewrite ?Ho; by repeat split.
  - rewrite trace_of_run, state_of_run. simpl. rewrite Ho. by repeat split.
Qed.

(** X11. [shutdown] clears [running], so that the loop condition fails
    and no further pass is made.  It invokes the disabling command exactly
    when the ownership flag is set, and no other command.  An [Exception]
    raised by that command is swallowed: no [Exception] leaves [shutdown],
    and the ownership flag is cleared only if the command returned. *)
Theorem shutdown_disables_only_when_owned (sg : Sigen) (s : BatterySitter) :
  let r := shutdown sg s in
  running (state_of r) = false ∧
  (∀ envs, while_running envs (state_of r) = (state_of r, [], Returns Left_loop)) ∧
  commands (trace_of r) =
    (if manual_charge_enabled s then [disable_command] else []) ∧
  (∀ cls, result_of r ≠ Raises (PyException cls)) ∧
  manual_charge_enabled (state_of r) =
    manual_charge_enabled s && negb (returns (command_result sg)) ∧
  is_charging (state_of r) = is_charging s.
Proof.
  intros r. subst r.
  assert (Hrun : running (state_of (shutdown sg s)) = false).
  { rewrite shutdown_run.
    destruct (manual_charge_enabled s), (command_result sg) as [|[]]; reflexivity. }
  split; [exact Hrun |]. split.
  { intros envs. by apply while_running_stopped. }
  rewrite shutdown_run. cbv zeta.
  destruct (manual_charge_enabled s) eqn:Ho.
  - destruct (command_result sg) as [|[]];
      rewrite trace_of_run, result_of_run, state_of_run, commands_command_trace;
      simpl; rewrite ?Ho; by repeat split.
  - rewrite trace_of_run, result_of_run, state_of_run. simpl. rewrite Ho.
    by repeat split.
Qed.

(** [run] in closed form. *)
Lemma run_run boot envs last s :
  run boot envs last s =
    let body := (connect boot;; monitor_loop envs) s in
    match result_of body with
    | Returns Next_pass => body
    | r =>
        (state_of (shutdown last (state_of body)),
         trace_of body ++ trace_of (shutdown last (state_of body)),
         match result_of (shutdown last (state_of body)) with
         | Returns _ => r
         | Raises e => Raises e
         end)
    end.
Proof.
  unfold run. cbv zeta.
  destruct ((connect boot;; monitor_loop envs) s) as [[s1 t1] [[]|e]];
    rewrite ?result_of_run, ?state_of_run, ?trace_of_run; try reflexivity.
  all: by destruct (shutdown last s1) as [[s2 t2] [[]|e2]].
Qed.

(** X12. Whenever [run] is over (the loop was left, or something was
    raised in [connect] or in the loop), [shutdown] has run: [running] is
    false, the commands of the run are those of the loop followed by one
    disabling command if the ownership flag was still set, and that flag
    is clear at the end provided the last command returned.  The flag
    never outlives [is_charging], also at the end. *)
Theorem run_always_shuts_down
    (boot : tick_env) (envs : list tick_env) (last : Sigen)
    (power : number) (interval : Z) :
  let body := (connect boot;; monitor_loop envs) (init power interval) in
  let r := run boot envs last (init power interval) in
  result_of r ≠ Returns Next_pass →
  running (state_of r) = false ∧
  commands (trace_of r) =
    commands (trace_of body) ++
    (if manual_charge_enabled (state_of body) then [disable_command] else []) ∧
  (returns (command_result last) = true → manual_charge_enabled (state_of r) = false) ∧
  ownership_invariant (state_of r).
Proof.
  intros body r. subst r. rewrite run_run. fold body. cbv zeta.
  assert (Hinv : ownership_invariant (state_of body)).
  { subst body. rewrite bind_run. unfold connect. rewrite bind_run. unfold call, modify.
    destruct (connect_reply boot) as [t|e]; [|by intros ?].
    rewrite monitor_loop_run.
    pose proof (while_running_invariant envs
      (set_running true (set_last_connection_time (Some t) (init power interval)))) as Hw.
    destruct (while_running envs _) as [[s2 t2] r2]. apply Hw. by intros ?. }
  pose proof (shutdown_disables_state last (state_of body)) as (Hr & Hc & Ho).
  pose proof (shutdown_invariant last (state_of body) Hinv) as Hi.
  destruct (result_of body) as [[]|e] eqn:Hres;
    [| intros H; destruct (H Hres) |];
    intros _; rewrite state_of_run, trace_of_run, commands_app, Hc;
    (split; [exact Hr |]); (split; [reflexivity |]);
    (split; [|exact Hi]); intros Hok; rewrite Ho, Hok; apply andb_false_r.
Qed.

(** X13. When the first connection fails, the loop is never entered: the
    only call of the whole run is [connect], no probe is read and nothing
    is commanded; [shutdown] still clears [running], and what [connect]
    raised is raised by [run]. *)
Theorem run_stops_when_connect_fails
    (boot : tick_env) (envs : list tick_env) (last : Sigen)
    (power : number) (interval : Z) (e : exn) :
  connect_reply boot = Raises e →
  run boot envs last (init power interval) =
    (set_running false (init power interval), [Connect], Raises e).
Proof.
  intros Hboot. rewrite run_run. cbv zeta.
  assert (Hbody : (connect boot;; monitor_loop envs) (init power interval) =
                  (init power interval, [Connect], Raises e)).
  { rewrite bind_run. unfold connect. rewrite bind_run. unfold call.
    by rewrite Hboot. }
  rewrite Hbody, result_of_run, state_of_run, trace_of_run, shutdown_run.
  reflexivity.
Qed.

(** ** Selecting an operational mode by name *)

Lemma find_mode_none lower mode_name modes :
  Forall (passed_over lower mode_name) modes →
  find_mode lower mode_name modes = Returns None.
Proof.
  induction 1 as [|mode rest (label & Hl & Hc) _ IH]; [reflexivity |].
  simpl. unfold label_lower. by rewrite Hl, Hc.
Qed.

Lemma find_mode_first lower mode_name before mode label after :
  Forall (passed_over lower mode_name) before →
  py_getitem mode "label" = Returns (PStr label) →
  contains (lower mode_name) (lower label) = true →
  find_mode lower mode_name (before ++ mode :: after) = Returns (Some mode).
Proof.
  intros Hb Hl Hc.
  induction Hb as [|m rest (l & Hml & Hmc) _ IH]; simpl; unfold label_lower.
  - by rewrite Hl, Hc.
  - by rewrite Hml, Hmc.
Qed.

Lemma find_mode_some lower mode_name modes mode :
  find_mode lower mode_name modes = Returns (Some mode) →
  mode ∈ modes ∧
  ∃ label, py_getitem mode "label" = Returns (PStr label) ∧
           contains (lower mode_name) (lower label) = true.
Proof.
  induction modes as [|m rest IH]; [discriminate |].
  simpl. unfold label_lower.
  destruct (py_getitem m "label") as [[]|] eqn:Hl; try discriminate.
  destruct (contains (lower mode_name) (lower s)) eqn:Hc.
  - intros [= <-]. split; [apply list_elem_of_here | eauto].
  - intros H. destruct (IH H) as [Hin Hlab]. split; [by apply list_elem_of_further | done].
Qed.

(** X14. [set_operational_mode_by_name] sets the first listed mode whose
    label contains the name (both lowered), whatever comes after it in the
    list, with the [int] of that mode's value, and returns what the client
    returns.  When every listed mode is passed over (the empty list
    included) it raises [ValueError] without setting any mode.  It returns
    only if a mode was set and the client returned; what fetching the list
    raises is raised again. *)
Theorem mode_is_first_match
    (lower : string → string) (py_int : pyval → outcome Z)
    (a : mode_answers) (mode_name : string) :
  (∀ before mode label value z after,
     listed_modes a = Returns (before ++ mode :: after) →
     Forall (passed_over lower mode_name) before →
     py_getitem mode "label" = Returns (PStr label) →
     contains (lower mode_name) (lower label) = true →
     py_getitem mode "value" = Returns value →
     py_int value = Returns z →
     set_operational_mode_by_name lower py_int a mode_name =
       ([GetOperationalModes; SetOperationalMode z], set_operational_mode a)) ∧
  (∀ modes,
     listed_modes a = Returns modes →
     Forall (passed_over lower mode_name) modes →
     set_operational_mode_by_name lower py_int a mode_name =
       ([GetOperationalModes], Raises (PyException "ValueError"))) ∧
  (∀ e, listed_modes a = Raises e →
        set_operational_mode_by_name lower py_int a mode_name =
          ([GetOperationalModes], Raises e)) ∧
  (∀ result,
     (set_operational_mode_by_name lower py_int a mode_name).2 = Returns result →
     set_operational_mode a = Returns result ∧
     ∃ modes mode value z,
       listed_modes a = Returns modes ∧ mode ∈ modes ∧
       py_getitem mode "value" = Returns value ∧ py_int value = Returns z ∧
       (set_operational_mode_by_name lower py_int a mode_name).1 =
         [GetOperationalModes; SetOperationalMode z]).
Proof.
  unfold set_operational_mode_by_name, reraising, await, eval.
  split; [|split; [|split]].
  - intros before mode label value z after Hm Hb Hl Hc Hv Hz.
    rewrite Hm. cbn [mbind Calls_bind fst snd].
    rewrite (find_mode_first _ _ _ _ _ _ Hb Hl Hc). cbn [mbind Calls_bind fst snd].
    rewrite Hv. cbn [mbind Calls_bind fst snd]. rewrite Hz. simpl.
    by destruct (set_operational_mode a) as [|[]].
  - intros modes Hm Hall. rewrite Hm. cbn [mbind Calls_bind fst snd].
    by rewrite (find_mode_none _ _ _ Hall).
  - intros e ->. by destruct e.
  - intros result. destruct (listed_modes a) as [modes|[]]; try discriminate.
    cbn [mbind Calls_bind fst snd].
    destruct (find_mode lower mode_name modes) as [[mode|]|[]] eqn:Hf;
      try discriminate.
    apply find_mode_some in Hf as [Hin _]. cbn [mbind Calls_bind fst snd].
    destruct (py_getitem mode "value") as [value|[]] eqn:Hv; try discriminate.
    cbn [mbind Calls_bind fst snd].
    destruct (py_int value) as [z|[]] eqn:Hz; try discriminate.
    simpl. destruct (set_operational_mode a) as [v|[]]; try discriminate.
    simpl. intros [= <-]. split; [reflexivity |].
    exists modes, mode, value, z. by repeat split.
Qed.

(** ** Connecting, step by step *)

Lemma log_modes_returns modes :
  log_modes modes = Returns () ↔ Forall loggable modes.
Proof.
  induction modes as [|mode rest IH]; simpl.
  - split; [by constructor | done].
  - split.
    + destruct mode; simpl; try discriminate.
      destruct (d !! "label") as [label|] eqn:Hl; [|discriminate].
      destruct (d !! "value") as [value|] eqn:Hv; [|discriminate].
      intros H. constructor; [by exists d, label, value | by apply IH].
    + intros H. apply Forall_cons in H as [(d & label & value & -> & Hl & Hv) Hrest].
      simpl. rewrite Hl, Hv. by apply IH.
Qed.

Lemma log_modes_raises modes e :
  log_modes modes = Raises e → ∃ cls, e = PyException cls.
Proof.
  induction modes as [|mode rest IH]; simpl; [discriminate |].
  destruct mode; simpl; try (intros [= <-]; eauto).
  destruct (d !! "label"); [|intros [= <-]; eauto].
  destruct (d !! "value"); [exact IH | intros [= <-]; eauto].
Qed.

(** X15. [connect] takes its stamp exactly when its five calls return, in
    the order made, and every listed mode is a dictionary with a label and
    a value; a listed mode that lacks either makes it raise after the list
    was fetched and before the current mode is asked for.  The calls made
    are always an initial part of the five.  Fed to the loop as the answer
    of its reconnection, a [connect] that raised leaves the stamp of the
    last connection as it was. *)
Theorem connect_stamps_only_when_complete (c : connect_answers) :
  ((connect_steps c).2 = Returns (connected_at c) ↔
   discoverLocations c = Returns () ∧ first_refresh c = Returns () ∧
   async_initialize c = Returns () ∧
   (∃ modes, get_operational_modes c = Returns modes ∧ Forall loggable modes) ∧
   (∃ current, get_operational_mode c = Returns current)) ∧
  (∀ t, (connect_steps c).2 = Returns t → t = connected_at c ∧
        (connect_steps c).1 = connect_calls) ∧
  (connect_steps c).1 `prefix_of` connect_calls ∧
  (∀ modes,
     discoverLocations c = Returns () → first_refresh c = Returns () →
     async_initialize c = Returns () → get_operational_modes c = Returns modes →
     ¬ Forall loggable modes →
     ∃ cls, connect_steps c =
       ([DiscoverLocations; FirstRefresh; AsyncInitialize; GetOperationalModes],
        Raises (PyException cls))) ∧
  (∀ env s,
     connect_reply env = (connect_steps c).2 →
     last_connection_time (state_of (connect env s)) =
       if returns (connect_steps c).2 then Some (connected_at c)
       else last_connection_time s).
Proof.
  unfold connect_steps, connect_calls, await, eval.
  split; [|split; [|split; [|split]]].
  - split.
    + destruct (discoverLocations c) as [[]|]; [|discriminate].
      destruct (first_refresh c) as [[]|]; [|discriminate].
      destruct (async_initialize c) as [[]|]; [|discriminate].
      destruct (get_operational_modes c) as [modes|]; [|discriminate].
      cbn [mbind Calls_bind fst snd].
      destruct (log_modes modes) as [[]|] eqn:Hlog; [|discriminate].
      destruct (get_operational_mode c) as [current|]; [|discriminate].
      intros _. repeat split; eauto. exists modes. split; [done |].
      by apply log_modes_returns.
    + intros (-> & -> & -> & (modes & -> & Hall) & (current & ->)).
      apply log_modes_returns in Hall. cbn [mbind Calls_bind fst snd].
      by rewrite Hall.
  - intros t.
    destruct (discoverLocations c) as [[]|]; [|discriminate].
    destruct (first_refresh c) as [[]|]; [|discriminate].
    destruct (async_initialize c) as [[]|]; [|discriminate].
    destruct (get_operational_modes c) as [modes|]; [|discriminate].
    cbn [mbind Calls_bind fst snd].
    destruct (log_modes modes) as [[]|]; [|discriminate].
    destruct (get_operational_mode c); [|discriminate].
    by intros [= <-].
  - destruct (discoverLocations c) as [[]|]; [|by exists [FirstRefresh; AsyncInitialize; GetOperationalModes; GetOperationalMode]].
    destruct (first_refresh c) as [[]|]; [|by exists [AsyncInitialize; GetOperationalModes; GetOperationalMode]].
    destruct (async_initialize c) as [[]|]; [|by exists [GetOperationalModes; GetOperationalMode]].
    destruct (get_operational_modes c) as [modes|]; [|by exists [GetOperationalMode]].
    cbn [mbind Calls_bind fst snd].
    destruct (log_modes modes) as [[]|]; [|by exists [GetOperationalMode]].
    destruct (get_operational_mode c); by exists [].
  - intros modes -> -> -> -> Hbad. cbn [mbind Calls_bind fst snd].
    destruct (log_modes modes) as [[]|e] eqn:Hlog.
    + by apply log_modes_returns in Hlog.
    + apply log_modes_raises in Hlog as [cls ->]. by exists cls.
  - intros env s Hreply. unfold connect. rewrite bind_run. unfold call.
    rewrite Hreply.
    destruct (discoverLocations c) as [[]|]; [|reflexivity].
    destruct (first_refresh c) as [[]|]; [|reflexivity].
    destruct (async_initialize c) as [[]|]; [|reflexivity].
    destruct (get_operational_modes c) as [modes|]; [|reflexivity].
    cbn [mbind Calls_bind fst snd].
    destruct (log_modes modes) as [[]|]; [|reflexivity].
    destruct (get_operational_mode c); reflexivity.
Qed.

(** ** Loading the configuration *)

Lemma setting_returns config section key value :
  setting config section key = Returns value ↔ holds config section key value.
Proof.
  unfold setting, holds, py_getitem. split.
  - destruct config; try discriminate.
    destruct (d !! section) as [[]|] eqn:Hs; try discriminate.
    destruct (d0 !! key) as [v|] eqn:Hk; [|discriminate].
    intros [= <-]. eauto.
  - intros (c & inner & -> & Hs & Hk). by rewrite Hs, Hk.
Qed.

Lemma setting_raises config section key e :
  setting config section key = Raises e → ∃ cls, e = PyException cls.
Proof.
  unfold setting, py_getitem.
  destruct config; try (intros [= <-]; eauto).
  destruct (d !! section) as [[]|]; try (intros [= <-]; eauto).
  destruct (d0 !! key); [discriminate | intros [= <-]; eauto].
Qed.

Lemma read_settings_raises config e :
  read_settings config = Raises e → ∃ cls, e = PyException cls.
Proof.
  unfold read_settings. intros Hr.
  repeat match type of Hr with
         | match setting ?c ?a ?b with _ => _ end = _ =>
             let H := fresh "Hs" in
             destruct (setting c a b) eqn:H;
             [|injection Hr as <-; by apply setting_raises in H]
         end.
  discriminate Hr.
Qed.

(** X16. The start of the program yields the constructor's arguments
    exactly when the configuration file exists, decodes, and holds the
    eight settings zappi.username, zappi.password, zappi.serial,
    sigenergy.username, sigenergy.password, sigenergy.region,
    polling.interval_seconds and sigenergy.charging_power, each section
    being an object.  A missing file, invalid JSON and any other error in
    reading it end the process with status 1, after a first printed line
    that starts with ERROR: and never with another status; a missing
    setting raises. *)
Theorem settings_need_file_and_keys (fs : config_file) (config_path : string) :
  (∀ st,
     (load_settings fs config_path).2 = Started st ↔
     path_exists fs = true ∧
     ∃ config, load fs = Decoded config ∧
       holds config "zappi" "username" (zappi_username st) ∧
       holds config "zappi" "password" (zappi_password st) ∧
       holds config "zappi" "serial" (zappi_serial st) ∧
       holds config "sigenergy" "username" (sigenergy_username st) ∧
       holds config "sigenergy" "password" (sigenergy_password st) ∧
       holds config "sigenergy" "region" (sigenergy_region st) ∧
       holds config "polling" "interval_seconds" (setting_poll_interval st) ∧
       holds config "sigenergy" "charging_power" (setting_charging_power st)) ∧
  (path_exists fs = false →
   load_settings fs config_path =
     (["ERROR: " +:+ config_path +:+ " not found!";
       "Please copy config.example.json to config.json and fill in your credentials."],
      Exit 1)) ∧
  (∀ message, path_exists fs = true → load fs = JSONDecodeError message →
     load_settings fs config_path =
       (["ERROR: Invalid JSON in " +:+ config_path +:+ ": " +:+ message], Exit 1)) ∧
  (∀ message, path_exists fs = true → load fs = OtherError message →
     load_settings fs config_path =
       (["ERROR: Failed to load " +:+ config_path +:+ ": " +:+ message], Exit 1)) ∧
  (∀ code, (load_settings fs config_path).2 = Exit code →
     code = 1 ∧
     ∃ text rest, (load_settings fs config_path).1 = ("ERROR: " +:+ text) :: rest) ∧
  (∀ config, path_exists fs = true → load fs = Decoded config →
     (∃ st, (load_settings fs config_path).2 = Started st) ∨
     (∃ cls, (load_settings fs config_path).2 = Failed (PyException cls))).
Proof.
  unfold load_settings, load_config.
  split; [|split; [|split; [|split; [|split]]]].
  - intros st. split.
    + destruct (path_exists fs); [|discriminate]. simpl.
      destruct (load fs) as [config| | |]; try discriminate. simpl.
      destruct (read_settings config) as [st'|] eqn:Hr; [|discriminate].
      intros [= ->]. split; [reflexivity |]. exists config. split; [reflexivity |].
      unfold read_settings in Hr.
      repeat match type of Hr with
             | match setting ?c ?a ?b with _ => _ end = _ =>
                 let H := fresh "Hs" in
                 destruct (setting c a b) eqn:H; [|discriminate Hr];
                 apply setting_returns in H
             end.
      injection Hr as <-. simpl. by repeat split.
    + intros (-> & config & -> & H1 & H2 & H3 & H4 & H5 & H6 & H7 & H8). simpl.
      apply setting_returns in H1, H2, H3, H4, H5, H6, H7, H8.
      unfold read_settings. rewrite H1, H2, H3, H4, H5, H6, H7, H8.
      destruct st. reflexivity.
  - by intros ->.
  - by intros message -> ->.
  - by intros message -> ->.
  - intros code. destruct (path_exists fs); simpl.
    + destruct (load fs) as [config| | |]; simpl;
        try (destruct (read_settings config)); try discriminate;
        intros [= <-]; (split; [reflexivity |]); eexists _, _; reflexivity.
    + intros [= <-]. split; [reflexivity |]. eexists _, _; reflexivity.
  - intros config -> ->. simpl.
    destruct (read_settings config) as [st|e] eqn:Hr; [eauto |]. right.
    apply read_settings_raises in Hr as [cls ->]. eauto.
Qed.

End Sitter.

(** ** The scenarios, run *)

(** Scenario B, for C3: EV charging starts while the battery reports 500. *)
Lemma ev_start_while_battery_charging_witness :
  numeric_and_positive (PInt 500) = true ∧
  commands (trace_of (loop_iteration repr_unused
                        (scenario true (PInt 500) accepted) (init (NInt 1) 30))) = [] ∧
  is_charging (state_of (loop_iteration repr_unused
                           (scenario true (PInt 500) accepted) (init (NInt 1) 30))) = true ∧
  manual_charge_enabled (state_of (loop_iteration repr_unused
                           (scenario true (PInt 500) accepted) (init (NInt 1) 30))) = false.
Proof.
  split; [reflexivity |].
  apply (ev_start_while_battery_charging repr_unused
           (scenario true (PInt 500) accepted) (init (NInt 1) 30)
           (init (NInt 1) 30) [ZappiRefresh; SigenGetEnergyFlow] (PInt 500) true).
  - reflexivity.
  - vm_compute. reflexivity.
  - reflexivity.
Defined.

(** Scenario D, for C4: EV charging stops while the override is owned. *)
Lemma ev_stop_witness :
  commands (trace_of (loop_iteration repr_unused
                        (scenario false (PInt 900) accepted) owning)) =
    [SetInstantManualCharge false 0 (NInt 0) "0"] ∧
  manual_charge_enabled (state_of (loop_iteration repr_unused
                           (scenario false (PInt 900) accepted) owning)) = false ∧
  is_charging (state_of (loop_iteration repr_unused
                           (scenario false (PInt 900) accepted) owning)) = false.
Proof.
  destruct (ev_stop repr_unused (scenario false (PInt 900) accepted) owning
              owning [ZappiRefresh; SigenGetEnergyFlow] (PInt 900) true)
    as [Howned _].
  - reflexivity.
  - vm_compute. reflexivity.
  - destruct (Howned eq_refl) as [Hcmd Hflags].
    split; [exact Hcmd | exact (Hflags eq_refl)].
Defined.

(** For C7: EV charging starts, the battery is idle, the cloud refuses the
    command; the flags stay as constructed and the next pass asks
    again. *)
Lemma command_failure_leaves_ownership_witness :
  is_charging (state_of (loop_iteration repr_unused
                           (scenario true (PInt 0) refused) (init (NInt 1) 30))) = false ∧
  manual_charge_enabled (state_of (loop_iteration repr_unused
                           (scenario true (PInt 0) refused) (init (NInt 1) 30))) = false ∧
  length (commands (trace_of (loop_iteration repr_unused
                           (scenario true (PInt 0) refused) (init (NInt 1) 30)))) = 1%nat ∧
  result_of (loop_iteration repr_unused
               (scenario true (PInt 0) refused) (init (NInt 1) 30)) = Returns Continue ∧
  commands (trace_of (loop_iteration repr_unused
                        (scenario true (PInt 0) accepted)
                        (state_of (loop_iteration repr_unused
                           (scenario true (PInt 0) refused) (init (NInt 1) 30))))) =
    commands (trace_of (loop_iteration repr_unused
                          (scenario true (PInt 0) refused) (init (NInt 1) 30))).
Proof.
  destruct (command_failure_leaves_ownership repr_unused
              (scenario true (PInt 0) refused) (init (NInt 1) 30)
              (init (NInt 1) 30) [ZappiRefresh; SigenGetEnergyFlow]
              true (PInt 0) false (PyException "ClientConnectorError"))
    as (Hc & Ho & Hone & Hcaught & Hnext).
  - vm_compute. reflexivity.
  - vm_compute. discriminate.
  - reflexivity.
  - split; [exact Hc |]. split; [exact Ho |]. split; [exact Hone |].
    split; [exact (Hcaught _ eq_refl eq_refl) |].
    apply (Hnext (scenario true (PInt 0) accepted) (init (NInt 1) 30)
             [ZappiRefresh; SigenGetEnergyFlow] (PInt 0)).
    vm_compute. reflexivity.
Defined.

(** For C1: after a pass that enabled the override both flags are set,
    and a pass that finds EV charging stopped clears the ownership. *)
Lemma ownership_implies_ev_charging_witness :
  manual_charge_enabled
    (state_of (monitor_loop repr_unused [scenario true (PInt 0) accepted]
                 (init (NInt 1) 30))) = true ∧
  is_charging
    (state_of (monitor_loop repr_unused [scenario true (PInt 0) accepted]
                 (init (NInt 1) 30))) = true ∧
  manual_charge_enabled
    (state_of (loop_iteration repr_unused (scenario false (PInt 900) accepted)
       (state_of (monitor_loop repr_unused [scenario true (PInt 0) accepted]
                    (init (NInt 1) 30))))) = false.
Proof.
  destruct (ownership_implies_ev_charging repr_unused (NInt 1) 30
              [scenario true (PInt 0) accepted]) as [Hinv Hforced].
  assert (Ho : manual_charge_enabled
                 (state_of (monitor_loop repr_unused [scenario true (PInt 0) accepted]
                              (init (NInt 1) 30))) = true).
  { vm_compute. reflexivity. }
  split; [exact Ho |]. split; [exact (Hinv Ho) |].
  destruct (Hforced (scenario false (PInt 900) accepted) owning
              [ZappiRefresh; SigenGetEnergyFlow] false (PInt 900) true)
    as [Hstop _].
  - vm_compute. reflexivity.
  - apply Hstop; [reflexivity | exact (Hinv Ho) | reflexivity].
Defined.


(** For X2: the pass of Scenario A, call by call up to its command. *)
Lemma command_follows_both_probes_witness :
  ∃ before c after,
    trace_of (loop_iteration repr_unused (scenario true (PInt 0) accepted)
                (init (NInt 1) 30)) =
      before ++ [ZappiRefresh; SigenGetEnergyFlow; c] ++ after ∧
    is_command c = true ∧ commands before = [] ∧ commands after = [].
Proof.
  apply (command_follows_both_probes repr_unused
           (scenario true (PInt 0) accepted) (init (NInt 1) 30)).
  vm_compute. discriminate.
Defined.

(** For X3: the charger cannot be refreshed while the override is owned. *)
Lemma charger_read_error_reads_as_stop_witness :
  commands (trace_of (loop_iteration repr_unused
     (pass_at 0 (Returns 0) unreachable
        (cloud (Returns (snapshot (PInt 55) (PInt 900))) accepted)) owning)) =
    [disable_command] ∧
  is_charging (state_of (loop_iteration repr_unused
     (pass_at 0 (Returns 0) unreachable
        (cloud (Returns (snapshot (PInt 55) (PInt 900))) accepted)) owning)) = false ∧
  manual_charge_enabled (state_of (loop_iteration repr_unused
     (pass_at 0 (Returns 0) unreachable
        (cloud (Returns (snapshot (PInt 55) (PInt 900))) accepted)) owning)) = false.
Proof.
  destruct (charger_read_error_reads_as_stop repr_unused
              (pass_at 0 (Returns 0) unreachable
                 (cloud (Returns (snapshot (PInt 55) (PInt 900))) accepted))
              owning owning [ZappiRefresh; SigenGetEnergyFlow] false (PInt 900) true
              "TimeoutError") as (_ & Hcmd & Hflags).
  - reflexivity.
  - vm_compute. reflexivity.
  - reflexivity.
  - reflexivity.
  - split; [exact Hcmd | exact (Hflags eq_refl)].
Defined.

(** For X4: the telemetry call times out while the EV charges. *)
Lemma telemetry_outage_takes_control_witness :
  commands (trace_of (loop_iteration repr_unused
     (pass_at 0 (Returns 0) (reading true)
        (cloud (Raises (PyException "TimeoutError")) accepted)) owning)) =
    [enable_command (NInt 1)].
Proof.
  destruct (telemetry_outage_takes_control repr_unused
              (pass_at 0 (Returns 0) (reading true)
                 (cloud (Raises (PyException "TimeoutError")) accepted))
              owning owning [ZappiRefresh; SigenGetEnergyFlow] (PStr "N/A") false)
    as (_ & _ & Hcmd).
  - right. exists "TimeoutError". reflexivity.
  - vm_compute. reflexivity.
  - exact Hcmd.
Defined.

(** For X5: the telemetry call answers a list. *)
Lemma malformed_snapshot_aborts_pass_witness :
  result_of (tick repr_unused
     (pass_at 0 (Returns 0) (reading true) (cloud (Returns (PList [])) accepted))
     owning) = Raises (PyException "AttributeError") ∧
  commands (trace_of (loop_iteration repr_unused
     (pass_at 0 (Returns 0) (reading true) (cloud (Returns (PList [])) accepted))
     owning)) = [].
Proof.
  destruct (malformed_snapshot_aborts_pass repr_unused
              (pass_at 0 (Returns 0) (reading true) (cloud (Returns (PList [])) accepted))
              owning (PList [])) as (_ & Hattr & Hcmd & _).
  - reflexivity.
  - reflexivity.
  - split; [apply Hattr; reflexivity | exact Hcmd].
Defined.

(** For X6: Scenario A followed by Scenario D. *)
Lemma start_stop_round_trip_witness :
  commands (trace_of (loop_iteration repr_unused (scenario true (PInt 0) accepted)
                        (init (NInt 1) 30))) ++
  commands (trace_of (loop_iteration repr_unused (scenario false (PInt 900) accepted)
     (state_of (loop_iteration repr_unused (scenario true (PInt 0) accepted)
                  (init (NInt 1) 30))))) =
    [enable_command (NInt 1); disable_command] ∧
  is_charging (state_of (loop_iteration repr_unused (scenario false (PInt 900) accepted)
     (state_of (loop_iteration repr_unused (scenario true (PInt 0) accepted)
                  (init (NInt 1) 30))))) = false ∧
  manual_charge_enabled
    (state_of (loop_iteration repr_unused (scenario false (PInt 900) accepted)
       (state_of (loop_iteration repr_unused (scenario true (PInt 0) accepted)
                    (init (NInt 1) 30))))) = false.
Proof.
  destruct (start_stop_round_trip repr_unused
              (scenario true (PInt 0) accepted) (scenario false (PInt 900) accepted)
              (init (NInt 1) 30) (init (NInt 1) 30)
              (set_manual_charge_enabled true (set_is_charging true (init (NInt 1) 30)))
              [ZappiRefresh; SigenGetEnergyFlow] [ZappiRefresh; SigenGetEnergyFlow]
              (PInt 0) (PInt 900) true)
    as (_ & _ & Hcmd & Hc & Ho).
  - reflexivity.
  - reflexivity.
  - vm_compute. reflexivity.
  - reflexivity.
  - vm_compute. reflexivity.
  - reflexivity.
  - split; [exact Hcmd |]. split; [exact Hc | exact Ho].
Defined.


(** For X9: the reconnection gets through one second after the pass
    started; a pass seven hours later does not reconnect. *)
Lemma reconnect_resets_clock_witness :
  last_connection_time (state_of (loop_iteration repr_unused
     (pass_at eight_hours (Returns (eight_hours + 1000000)) (reading false)
        (cloud (Returns (snapshot (PInt 55) (PInt 0))) accepted)) connected)) =
    Some (eight_hours + 1000000) ∧
  connects (trace_of (loop_iteration repr_unused
     (pass_at (eight_hours + 25200000000) (Returns 0) (reading false)
        (cloud (Returns (snapshot (PInt 55) (PInt 0))) accepted))
     (state_of (loop_iteration repr_unused
        (pass_at eight_hours (Returns (eight_hours + 1000000)) (reading false)
           (cloud (Returns (snapshot (PInt 55) (PInt 0))) accepted)) connected)))) = [].
Proof.
  destruct (reconnect_resets_clock repr_unused
              (pass_at eight_hours (Returns (eight_hours + 1000000)) (reading false)
                 (cloud (Returns (snapshot (PInt 55) (PInt 0))) accepted))
              connected (eight_hours + 1000000)) as [Hclock Hquiet].
  - reflexivity.
  - reflexivity.
  - split; [exact Hclock |]. apply Hquiet. vm_compute. reflexivity.
Defined.

(** For X10: Scenario A then Scenario D; the disabling command comes
    second. *)
Lemma no_disable_without_enable_witness :
  commands (trace_of (monitor_loop repr_unused
     [scenario true (PInt 0) accepted; scenario false (PInt 900) accepted]
     (init (NInt 1) 30))) = [enable_command (NInt 1)] ++ disable_command :: [] ∧
  Exists (λ e, is_enable e = true) [enable_command (NInt 1)].
Proof.
  assert (H : commands (trace_of (monitor_loop repr_unused
     [scenario true (PInt 0) accepted; scenario false (PInt 900) accepted]
     (init (NInt 1) 30))) = [enable_command (NInt 1)] ++ disable_command :: []).
  { vm_compute. reflexivity. }
  split; [exact H |].
  destruct (no_disable_without_enable repr_unused (NInt 1) 30
     [scenario true (PInt 0) accepted; scenario false (PInt 900) accepted])
    as [Hd _].
  exact (Hd _ _ _ H eq_refl).
Defined.

(** For X12: the EV starts charging, the override is enabled, and the
    sleep is interrupted from the keyboard: the loop is left and the
    override is disabled on the way out. *)
Lemma run_always_shuts_down_witness :
  result_of (run repr_unused (scenario false (PInt 0) accepted)
               [interrupted true (PInt 0)] (cloud (Returns PNone) accepted)
               (init (NInt 1) 30)) = Returns Left_loop ∧
  running (state_of (run repr_unused (scenario false (PInt 0) accepted)
               [interrupted true (PInt 0)] (cloud (Returns PNone) accepted)
               (init (NInt 1) 30))) = false ∧
  commands (trace_of (run repr_unused (scenario false (PInt 0) accepted)
               [interrupted true (PInt 0)] (cloud (Returns PNone) accepted)
               (init (NInt 1) 30))) = [enable_command (NInt 1); disable_command] ∧
  manual_charge_enabled (state_of (run repr_unused (scenario false (PInt 0) accepted)
               [interrupted true (PInt 0)] (cloud (Returns PNone) accepted)
               (init (NInt 1) 30))) = false.
Proof.
  assert (Hres : result_of (run repr_unused (scenario false (PInt 0) accepted)
               [interrupted true (PInt 0)] (cloud (Returns PNone) accepted)
               (init (NInt 1) 30)) = Returns Left_loop).
  { vm_compute. reflexivity. }
  destruct (run_always_shuts_down repr_unused (scenario false (PInt 0) accepted)
              [interrupted true (PInt 0)] (cloud (Returns PNone) accepted)
              (NInt 1) 30) as (Hrun & Hcmd & Hown & _).
  - rewrite Hres. discriminate.
  - split; [exact Hres |]. split; [exact Hrun |]. split; [|exact (Hown eq_refl)].
    rewrite Hcmd. vm_compute. reflexivity.
Defined.

(** For X13: the cloud cannot be reached at startup. *)
Lemma run_stops_when_connect_fails_witness :
  run repr_unused
    (pass_at 0 (Raises (PyException "TimeoutError")) (reading true)
       (cloud (Returns (snapshot (PInt 55) (PInt 0))) accepted))
    [scenario true (PInt 0) accepted] (cloud (Returns PNone) accepted)
    (init (NInt 1) 30) =
    (set_running false (init (NInt 1) 30), [Connect],
     Raises (PyException "TimeoutError")).
Proof.
  apply (run_stops_when_connect_fails repr_unused
           (pass_at 0 (Raises (PyException "TimeoutError")) (reading true)
              (cloud (Returns (snapshot (PInt 55) (PInt 0))) accepted))
           [scenario true (PInt 0) accepted] (cloud (Returns PNone) accepted)
           (NInt 1) 30 (PyException "TimeoutError")).
  reflexivity.
Defined.

(** For X14: the name, in another case, is found in the second label; the
    entry after it that is no mode is never looked at. *)
Lemma mode_is_first_match_witness :
  set_operational_mode_by_name lower_letters int_of_int some_modes "SELF-powered" =
    ([GetOperationalModes; SetOperationalMode 0], Returns (PBool true)).
Proof.
  destruct (mode_is_first_match lower_letters int_of_int some_modes "SELF-powered")
    as [Hfirst _].
  apply (Hfirst [listed "Sigen AI Mode" 1] (listed "Maximum Self-Powered" 0)
           "Maximum Self-Powered" (PInt 0) 0 [listed "Fully Fed to Grid" 5; PNone]).
  - reflexivity.
  - constructor; [|constructor]. exists "Sigen AI Mode". split; vm_compute; reflexivity.
  - vm_compute. reflexivity.
  - vm_compute. reflexivity.
  - vm_compute. reflexivity.
  - reflexivity.
Defined.

(** For X16: a complete file yields the eight arguments. *)
Lemma settings_need_file_and_keys_witness :
  (load_settings some_file "config.json").2 =
    @Started settings
            {| zappi_username := PStr "hub"; zappi_password := PStr "key";
               zappi_serial := PStr "12345678";
               sigenergy_username := PStr "me@example.org";
               sigenergy_password := PStr "secret";
               sigenergy_region := PStr "eu";
               setting_poll_interval := PInt 30;
               setting_charging_power := PInt 1 |}.
Proof.
  destruct (settings_need_file_and_keys some_file "config.json") as [Hiff _].
  apply Hiff. split; [reflexivity |]. exists some_config. split; [reflexivity |].
  repeat split; unfold holds, some_config; eexists _, _;
    (split; [reflexivity |]); split; vm_compute; reflexivity.
Defined.
